(** * TelegramGroupHelperBot: the cwd.pw upload adapters and the delivery gate

    A shallow embedding of [bot/cwd_uploader.py] and of the delivery
    decision exercised by [tests/unit/test_send_response_logic.py].

    Python values are modelled as the interpreter has them: a [str] is a
    sequence of Unicode code points, [bytes] a sequence of octets, an
    exception is a class with its message.  Effects (logging, the HTTP
    request, the edits of the Telegram message) are recorded in a trace;
    the answers of the outside world are parameters of the model. *)

From Stdlib Require Import Strings.String Strings.Ascii Strings.Byte.
From Stdlib Require Import List NArith ZArith Bool Lia.
From Stdlib Require Import Floats.SpecFloat.
Import ListNotations.


(** ** Python values *)

Module Py.

(** A code point; Python's [str] holds values below [0x110000]. *)
Definition codepoint := N.
Definition str := list codepoint.
Definition bytes := list byte.

(** A literal of the source, written with the ASCII characters it has. *)
Definition py (s : String.string) : str :=
  map N_of_ascii (String.list_ascii_of_string s).
Arguments py s%_string.

(** Characters that a string literal of this file cannot hold. *)
Definition CR : codepoint := 13%N.
Definition LF : codepoint := 10%N.
Definition CRLF : str := [CR; LF].
Definition dquote : str := [34%N].

(** The one-character separators the uploader splits on. *)
Definition comma : codepoint := 44%N.
Definition semicolon : codepoint := 59%N.
Definition slash : codepoint := 47%N.

Definition len {A} (s : list A) : Z := Z.of_nat (length s).

Fixpoint str_eqb (a b : str) : bool :=
  match a, b with
  | [], [] => true
  | x :: a', y :: b' => (x =? y)%N && str_eqb a' b'
  | _, _ => false
  end.

(** [s.startswith(prefix)] *)
Fixpoint startswith (s prefix : str) {struct prefix} : bool :=
  match prefix with
  | [] => true
  | p :: prefix' =>
      match s with
      | [] => false
      | c :: s' => (c =? p)%N && startswith s' prefix'
      end
  end.

(** [s.endswith(suffix)] *)
Definition endswith (s suffix : str) : bool :=
  startswith (rev s) (rev suffix).

(** [s.split(sep)] for a separator of one character. *)
Fixpoint split (sep : codepoint) (s : str) : list str :=
  match s with
  | [] => [[]]
  | c :: s' =>
      if (c =? sep)%N then [] :: split sep s'
      else match split sep s' with
           | w :: ws => (c :: w) :: ws
           | [] => [[c]]
           end
  end.

(** [s.split(sep, 1)] for a separator of one character: at most one cut. *)
Fixpoint split1 (sep : codepoint) (s : str) : list str :=
  match s with
  | [] => [[]]
  | c :: s' =>
      if (c =? sep)%N then [[]; s']
      else match split1 sep s' with
           | w :: ws => (c :: w) :: ws
           | [] => [[c]]
           end
  end.

(** [s.replace(old, new)] for a non-empty [old]: the occurrences of
    [old] are found left to right and do not overlap.  [skip] counts the
    characters of a matched occurrence still to be passed over. *)
Fixpoint replace_from (old new : str) (skip : nat) (s : str) : str :=
  match s with
  | [] => []
  | c :: s' =>
      match skip with
      | S k => replace_from old new k s'
      | O =>
          if startswith s old
          then new ++ replace_from old new (length old - 1) s'
          else c :: replace_from old new 0 s'
      end
  end.

Definition replace (s old new : str) : str := replace_from old new 0 s.

(** [s.count(c)] for one character. *)
Fixpoint count (c : codepoint) (s : str) : Z :=
  match s with
  | [] => 0
  | x :: s' => (if (x =? c)%N then 1 else 0) + count c s'
  end.

(** [needle in s] *)
Fixpoint contains (s needle : str) : bool :=
  startswith s needle ||
  match s with
  | [] => false
  | _ :: s' => contains s' needle
  end.

(** [x in [a, b, ...]] on strings. *)
Definition str_in (x : str) (l : list str) : bool := existsb (str_eqb x) l.

(** The ASCII part of [str.lower()]. *)
Definition ascii_lower (c : codepoint) : codepoint :=
  if ((65 <=? c) && (c <=? 90))%N then (c + 32)%N else c.

Definition is_ascii (s : str) : bool := forallb (fun c => (c <? 128)%N) s.

(** *** Exceptions *)

(** The classes met in this code.  Every one derives from [Exception];
    what does not (the cancellation of a task, an interrupt) is outside
    the model. *)
Inductive exc_class : Type :=
| ValueError | AttributeError | IndexError | TypeError
| UnicodeEncodeError | BinasciiError
| ClientError | ServerTimeoutError | ContentTypeError | JSONDecodeError
| BadRequest | OtherException.

Record exn : Type := Exn { exn_class : exc_class; exn_message : str }.

Inductive outcome (A : Type) : Type :=
| Ok (a : A)
| Raise (e : exn).
Arguments Ok {A} a.
Arguments Raise {A} e.

(** *** [str.encode('utf-8')] *)

Definition byte_of_N (n : N) : byte :=
  match Byte.of_N (n mod 256) with
  | Some b => b
  | None => x00
  end.

Definition encode_error : exn :=
  Exn UnicodeEncodeError (py "surrogates not allowed").

(** A lone surrogate has no UTF-8 form: the codec raises on it. *)
Definition utf8_char (c : codepoint) : outcome bytes :=
  (if c <? 0x80 then Ok [byte_of_N c]
   else if c <? 0x800 then
     Ok [byte_of_N (0xC0 + c / 64); byte_of_N (0x80 + c mod 64)]
   else if c <? 0x10000 then
     if (0xD800 <=? c) && (c <=? 0xDFFF) then Raise encode_error
     else Ok [byte_of_N (0xE0 + c / 4096);
              byte_of_N (0x80 + (c / 64) mod 64);
              byte_of_N (0x80 + c mod 64)]
   else if c <? 0x110000 then
     Ok [byte_of_N (0xF0 + c / 262144);
         byte_of_N (0x80 + (c / 4096) mod 64);
         byte_of_N (0x80 + (c / 64) mod 64);
         byte_of_N (0x80 + c mod 64)]
   else Raise encode_error)%N.

Fixpoint encode_utf8 (s : str) : outcome bytes :=
  match s with
  | [] => Ok []
  | c :: s' =>
      match utf8_char c with
      | Raise e => Raise e
      | Ok b =>
          match encode_utf8 s' with
          | Raise e => Raise e
          | Ok bs => Ok (b ++ bs)
          end
      end
  end.

(** A [bytes] literal of the source. *)
Definition pyb (s : String.string) : bytes := String.list_byte_of_string s.
Arguments pyb s%_string.
Definition CRLFb : bytes := [x0d; x0a].

(** *** Objects *)

(** The objects [json.loads] builds, [None] included; they are also what
    an adapter can hand back to its caller. *)
#[warnings="-register-all"]
Inductive pyobj : Type :=
| PNone
| PBool (b : bool)
| PInt (z : Z)
| PFloat (f : spec_float)
| PStr (s : str)
| PList (l : list pyobj)
| PDict (items : list (str * pyobj)).

(** Truth value testing, as [if x:] and [not x] do it. *)
Definition truthy (v : pyobj) : bool :=
  match v with
  | PNone => false
  | PBool b => b
  | PInt z => negb (z =? 0)%Z
  | PFloat (S754_zero _) => false
  | PFloat _ => true
  | PStr s => negb (str_eqb s [])
  | PList l => match l with [] => false | _ => true end
  | PDict d => match d with [] => false | _ => true end
  end.

Fixpoint lookup (k : str) (items : list (str * pyobj)) : option pyobj :=
  match items with
  | [] => None
  | (k', v) :: rest => if str_eqb k k' then Some v else lookup k rest
  end.

(** [obj.get(key)]: only a dict has the method. *)
Definition get (obj : pyobj) (key : str) : outcome pyobj :=
  match obj with
  | PDict items =>
      match lookup key items with
      | Some v => Ok v
      | None => Ok PNone
      end
  | _ => Raise (Exn AttributeError (py "object has no attribute 'get'"))
  end.

(** [x or ""] for an optional string argument. *)
Definition or_empty (x : option str) : str :=
  match x with
  | Some s => s
  | None => []
  end.

(** The annotation [Optional[str]]. *)
Definition is_optional_str (v : pyobj) : bool :=
  match v with
  | PNone | PStr _ => true
  | _ => false
  end.

End Py.

(** ** The outside world and the effects of the adapters *)

Module Effects.
Import Py.

(** What [session.post] is called with. *)
Inductive request_payload : Type :=
| Data (body : bytes)          (* [data=body] *)
| Json (payload : pyobj).      (* [json=payload] *)

Record request : Type := Request {
  url : str;
  headers : list (str * str);
  payload : request_payload;
  timeout_total : Z
}.

(** What the [aiohttp] response answers to the calls made on it. *)
Record response : Type := Response {
  ok : bool;                              (* [response.ok] *)
  status : Z;                             (* [response.status] *)
  headers_get : str -> option str;        (* [response.headers.get] *)
  text : outcome str;                     (* [await response.text()] *)
  json : outcome pyobj                    (* [await response.json()] *)
}.

(** Everything the module takes from outside itself. *)
Record World : Type := {
  b64decode : str -> outcome bytes;       (* [base64.b64decode] on a [str] *)
  b64encode_text : bytes -> str;          (* [base64.b64encode(b).decode('utf-8')] *)
  urandom : nat -> bytes;                 (* the entropy behind [secrets] *)
  session_post : request -> outcome response;
  CWD_PW_API_KEY : str                    (* [bot.config] *)
}.

Inductive level : Type := INFO | ERROR.

(** A value interpolated into a log message. *)
Inductive log_arg : Type :=
| AStr (s : str)
| AInt (z : Z)
| AObj (v : pyobj)
| AExn (e : exn).

(** A log record keeps the constant text of the message and the values
    formatted into it; a request is recorded as it is sent. *)
Inductive event : Type :=
| EvLog (lvl : level) (message : str) (args : list log_arg)
| EvPost (req : request).

Definition trace := list event.

(** A computation reads and extends the trace, and returns or raises. *)
Definition io (A : Type) : Type := trace -> outcome A * trace.

Definition ret {A} (a : A) : io A := fun t => (Ok a, t).

Definition bind {A B} (m : io A) (k : A -> io B) : io B :=
  fun t =>
    match m t with
    | (Ok a, t') => k a t'
    | (Raise e, t') => (Raise e, t')
    end.

Definition lift {A} (o : outcome A) : io A := fun t => (o, t).

Definition emit (ev : event) : io unit := fun t => (Ok tt, t ++ [ev]).

(** [try: body / except Exception as e: handler(e)] *)
Definition try_except {A} (body : io A) (handler : exn -> io A) : io A :=
  fun t =>
    match body t with
    | (Ok a, t') => (Ok a, t')
    | (Raise e, t') => handler e t'
    end.

Definition log (lvl : level) (message : str) (args : list log_arg)
  : io unit :=
  emit (EvLog lvl message args).

Definition post (w : World) (req : request) : io response :=
  bind (emit (EvPost req)) (fun _ => lift (session_post w req)).

(** [m] returns a value to its caller whatever has happened before. *)
Definition never_raises {A} (m : io A) : Prop :=
  forall t, exists a t', m t = (Ok a, t').

(** A call of an adapter, started with nothing logged yet. *)
Definition run {A} (m : io A) : outcome A * trace := m [].

Definition posts (t : trace) : list request :=
  flat_map (fun ev => match ev with EvPost r => [r] | _ => [] end) t.

End Effects.

Declare Scope io_scope.
Delimit Scope io_scope with io.
Notation "x <- m ;; k" := (Effects.bind m (fun x => k))
  (at level 61, m at next level, right associativity) : io_scope.
Notation "m ;; k" := (Effects.bind m (fun _ => k))
  (at level 61, right associativity) : io_scope.
Notation "'let?' x := o 'in' k" :=
  (match o with
   | Py.Ok x => k
   | Py.Raise e => Py.Raise e
   end)
  (at level 10, x pattern, o at level 100, k at level 200).

(** ** [bot/cwd_uploader.py] *)

Module CwdUploader.
Import Py Effects.
Local Open Scope io_scope.

(** [secrets.token_hex(n)]: [n] random bytes, two hex digits each. *)
Definition hexdigit (d : N) : codepoint :=
  (if d <? 10 then 48 + d else 87 + d)%N.

Definition hexlify (b : bytes) : str :=
  flat_map (fun x => [hexdigit (Byte.to_N x / 16);
                      hexdigit (Byte.to_N x mod 16)]) b.

Definition token_hex (w : World) (n : nat) : str := hexlify (urandom w n).

(** [a, b = l]: unpacking into two names. *)
Definition unpack2 (l : list str) : outcome (str * str) :=
  match l with
  | [a; b] => Ok (a, b)
  | _ => Raise (Exn ValueError (py "not enough values to unpack"))
  end.

(** [l[i]] *)
Definition item (l : list str) (i : nat) : outcome str :=
  match nth_error l i with
  | Some x => Ok x
  | None => Raise (Exn IndexError (py "list index out of range"))
  end.

(** How the checks of lines 28-54 end: with an error message and
    [return None], or with the three values the upload goes on with. *)
Inductive validation : Type :=
| Rejected (message : str) (args : list log_arg)
| Accepted (mime_match extension pure_base64 : str).

(** Line 52: the formats the service takes. *)
Definition supported_formats : list str := [py "png"; py "jpg"; py "webp"].

(** Lines 47-49: [jpeg] is written [jpg]. *)
Definition normalize_extension (extension : str) : str :=
  if str_eqb extension (py "jpeg") then py "jpg" else extension.

(** Lines 36-54: the MIME type is checked and gives the extension. *)
Definition check_mime_type (mime_match pure_base64 : str)
  : outcome validation :=
  if negb (startswith mime_match (py "image/")) then
    Ok (Rejected (py "Unsupported MIME type: ") [AStr mime_match])
  else
    let mime_parts := split slash mime_match in
    if negb (length mime_parts =? 2)%nat then
      Ok (Rejected (py "Invalid MIME type format: ") [AStr mime_match])
    else
      let? extension := item mime_parts 1 in
      let extension := normalize_extension extension in
      if negb (str_in extension supported_formats) then
        Ok (Rejected (py "Unsupported image format: ") [AStr extension])
      else
        Ok (Accepted mime_match extension pure_base64).

(** Lines 28-54 of [upload_base64_image_to_cwd]: the data URI is taken
    apart and checked. *)
Definition parse_data_uri (base64_data : str) : outcome validation :=
  if negb (startswith base64_data (py "data:image/")) then
    Ok (Rejected
          (py "Invalid base64 image format - missing data URI prefix") [])
  else
    let? (header, pure_base64) := unpack2 (split1 comma base64_data) in
    let? first := item (split semicolon header) 0 in
    let mime_match := replace first (py "data:") (py "") in
    check_mime_type mime_match pure_base64.

(** The characters that end or divide a MIME type inside a data URI; the
    name of a subtype has none of them. *)
Definition colon : codepoint := 58%N.

Definition is_subtype_name (sub : str) : bool :=
  forallb (fun c => negb (existsb (N.eqb c) [semicolon; comma; slash; colon]))
    sub.

(** The MIME types that pass the checks, each with the extension derived
    from it. *)
Definition accepted_pairs : list (str * str) :=
  [ (py "image/png", py "png"); (py "image/jpeg", py "jpg");
    (py "image/jpg", py "jpg"); (py "image/webp", py "webp") ].

(** Lines 66-127: the multipart form data.  A quotation mark inside a
    literal of the source is written [dquote] here. *)
Definition multipart_body (boundary extension mime_match : str)
    (binary_data : bytes) (api_key : str) (model prompt : option str)
  : outcome bytes :=
  let? image_header :=
    encode_utf8
      (py "--" ++ boundary ++ CRLF
       ++ py "Content-Disposition: form-data; name=" ++ dquote ++ py "image"
       ++ dquote ++ py "; filename=" ++ dquote ++ py "upload." ++ extension
       ++ dquote ++ CRLF
       ++ py "Content-Type: " ++ mime_match ++ CRLF
       ++ CRLF) in
  let? api_key_field :=
    encode_utf8
      (py "--" ++ boundary ++ CRLF
       ++ py "Content-Disposition: form-data; name=" ++ dquote
       ++ py "api_key" ++ dquote ++ CRLF
       ++ CRLF
       ++ api_key) in
  let? ai_generated_field :=
    encode_utf8
      (py "--" ++ boundary ++ CRLF
       ++ py "Content-Disposition: form-data; name=" ++ dquote
       ++ py "ai_generated" ++ dquote ++ CRLF
       ++ CRLF
       ++ py "true") in
  let? model_field :=
    encode_utf8
      (py "--" ++ boundary ++ CRLF
       ++ py "Content-Disposition: form-data; name=" ++ dquote
       ++ py "model" ++ dquote ++ CRLF
       ++ CRLF
       ++ or_empty model) in
  let? prompt_field :=
    encode_utf8
      (py "--" ++ boundary ++ CRLF
       ++ py "Content-Disposition: form-data; name=" ++ dquote
       ++ py "prompt" ++ dquote ++ CRLF
       ++ CRLF
       ++ or_empty prompt) in
  let? footer := encode_utf8 (py "--" ++ boundary ++ py "--" ++ CRLF) in
  let body_parts :=
    [ image_header;
      binary_data;
      CRLFb;
      api_key_field;
      CRLFb;
      ai_generated_field;
      CRLFb;
      model_field;
      CRLFb;
      prompt_field;
      CRLFb;
      footer ] in
  Ok (concat body_parts).

(** Lines 129-141: the request of the image upload. *)
Definition upload_request (boundary : str) (body : bytes) : request :=
  let headers :=
    [(py "Content-Type", py "multipart/form-data; boundary=" ++ boundary)] in
  Request (py "https://cwd.pw/api/upload-image") headers (Data body) 30.

Section WithWorld.
Variable w : World.

(** Line 64: a random boundary for the multipart form data. *)
Definition new_boundary : str :=
  py "----WebKitFormBoundary" ++ token_hex w 16.

(** Lines 208-232: the request of the paste upload. *)
Definition paste_request
    (title content user_prompt debug_info raw_response : str) : request :=
  let metadata :=
    PDict [(py "source",
            PStr (py "https://github.com/frankslin/TelegramGroupHelperBot"))] in
  let payload :=
    PDict [ (py "title", PStr title);
            (py "content", PStr content);
            (py "userPrompt", PStr user_prompt);
            (py "debugInfo", PStr debug_info);
            (py "rawResponse", PStr raw_response);
            (py "metadata", metadata) ] in
  let headers :=
    [ (py "X-API-Key", CWD_PW_API_KEY w);
      (py "Content-Type", py "application/json") ] in
  Request (py "https://cwd.pw/api/paste") headers (Json payload) 10.

(** Lines 162-164: the handler of the outer [try]. *)
Definition upload_failed (e : exn) : io pyobj :=
  log ERROR (py "Error uploading image to cwd.pw: ") [AExn e] ;;
  ret PNone.

(** Lines 143-160: reading the answer of the upload endpoint. *)
Definition read_upload_response (response : Effects.response)
  : io pyobj :=
  if negb (ok response) then
    error_text <- lift (text response) ;;
    log ERROR (py "Upload failed with status ")
      [AInt (status response); AStr error_text] ;;
    ret PNone
  else
    result <- lift (json response) ;;
    success <- lift (get result (py "success")) ;;
    if negb (truthy success) then
      log ERROR (py "Upload error: ") [AObj result] ;;
      ret PNone
    else
      image_url <- lift (get result (py "imageUrl")) ;;
      if truthy image_url then
        log INFO (py "Successfully uploaded image to cwd.pw: ")
          [AObj image_url] ;;
        ret image_url
      else
        log ERROR (py "Upload response missing imageUrl") [] ;;
        ret PNone.

Definition upload_base64_image_to_cwd (base64_data api_key : str)
    (model prompt : option str) : io pyobj :=
  try_except
    (v <- lift (parse_data_uri base64_data) ;;
     match v with
     | Rejected message args => log ERROR message args ;; ret PNone
     | Accepted mime_match extension pure_base64 =>
         match b64decode w pure_base64 with
         | Raise e =>
             log ERROR (py "Failed to decode base64 data: ") [AExn e] ;;
             ret PNone
         | Ok binary_data =>
             let boundary := new_boundary in
             body <- lift (multipart_body boundary extension mime_match
                             binary_data api_key model prompt) ;;
             response <- post w (upload_request boundary body) ;;
             read_upload_response response
         end
     end)
    upload_failed.

Definition default_mime_type : str := py "image/jpeg".

(** Lines 188-190: the handler of the byte-oriented entry point. *)
Definition conversion_failed (e : exn) : io pyobj :=
  log ERROR (py "Error converting image bytes to base64 for cwd.pw upload: ")
    [AExn e] ;;
  ret PNone.

(** Lines 244-246: the handler of the paste upload. *)
Definition paste_failed (e : exn) : io pyobj :=
  log ERROR (py "Error uploading to cwd.pw pastebin: ") [AExn e] ;;
  ret PNone.

Definition upload_image_bytes_to_cwd (image_bytes : bytes)
    (api_key mime_type : str) (model prompt : option str) : io pyobj :=
  try_except
    (let base64_encoded := b64encode_text w image_bytes in
     let base64_data :=
       py "data:" ++ mime_type ++ py ";base64," ++ base64_encoded in
     upload_base64_image_to_cwd base64_data api_key model prompt)
    conversion_failed.

Definition upload_to_cwd_pw_paste
    (title content user_prompt debug_info raw_response : str)
  : io pyobj :=
  try_except
    (log INFO (py "Uploading to cwd.pw pastebin, content length: ")
       [AInt (len content)] ;;
     response <- post w
       (paste_request title content user_prompt debug_info raw_response) ;;
     if existsb (Z.eqb (status response)) [301; 302]%Z then
       let location :=
         match headers_get response (py "Location") with
         | Some l => PStr l
         | None => PNone
         end in
       if truthy location then
         log INFO (py "cwd.pw paste created: ") [AObj location] ;;
         ret location
       else
         ret PNone
     else
       error_text <- lift (text response) ;;
       log ERROR (py "Failed to create cwd.pw paste: HTTP ")
         [AInt (status response); AStr error_text] ;;
       ret PNone)
    paste_failed.

End WithWorld.

End CwdUploader.

(** ** The delivery decision *)

Module SendResponse.
Import Py.

(** The line threshold of the gate, the [22] of [upload_service_logic]. *)
Definition LINE_THRESHOLD : Z := 22.

Definition DEFAULT_TELEGRAM_MAX_LENGTH : Z := 4000.

(** [content.count('\n') + 1], as [test_line_counting] has it. *)
Definition line_count (content : str) : Z := count LF content + 1.

Section Gate.
(** [str.lower()]: the case mapping of Unicode.  It is a parameter; where
    a property depends on it, it is assumed to act on ASCII text as
    [ascii_lower] does on each character. *)
Variable lower : str -> str.

(** [upload_service_logic] of [tests/unit/test_send_response_logic.py]. *)
Definition upload_service_logic (response_length line_count : Z)
    (upload_service : str) (telegram_max_length : Z) : str :=
  if (22 <? line_count)%Z || (telegram_max_length <? response_length)%Z
  then
    if str_eqb (lower upload_service) (py "cwd.pw") then py "cwd.pw"
    else py "telegra.ph"
  else py "direct".

(** The line of [test_service_matching_logic]. *)
Definition is_cwd_pw (service_name : str) : bool :=
  str_eqb (lower service_name) (py "cwd.pw").

(** *** The dispatcher *)

(** Modelled from the spec: the collaborators of the dispatcher and the
    configuration it reads (sections 3 and 6), under the names the test
    suite patches in [bot.handlers].  [edit_text n] answers the edit made
    after [n] others, so that a handle may fail on one attempt and accept
    the next. *)
Record Collaborators : Type := {
  UPLOAD_SERVICE : str;
  TELEGRAM_MAX_LENGTH : Z;
  upload_to_cwd_pw_paste : str -> str -> str -> str -> str -> option str;
  create_telegraph_page : str -> str -> option str;
  edit_text : nat -> str -> option str -> outcome unit
}.

(** Modelled from the spec: the calls a dispatch makes on its
    collaborators. *)
Inductive call : Type :=
| CallPaste (title content user_prompt debug_info raw_response : str)
| CallWiki (title content : str)
| CallEdit (text : str) (parse_mode : option str).

Definition is_adapter_call (c : call) : bool :=
  match c with
  | CallPaste _ _ _ _ _ | CallWiki _ _ => true
  | CallEdit _ _ => false
  end.

(** Modelled from the spec: the three fixed texts of section 4.3. *)
Definition link_message (url : str) : str :=
  py "I have too much to say. Please view it here: " ++ url.

Definition truncation_suffix : str :=
  py "..." ++ [LF; LF] ++ py "(Response was truncated due to length)".

Definition error_message : str :=
  py "Error: Failed to format response. Please try again.".

(** Modelled from the spec: the classification of a failed edit by a
    marker in the text of the error (section 4.3). *)
Definition message_too_long (e : exn) : bool :=
  contains (exn_message e) (py "Message_too_long").

(** Modelled from the spec: the response cut to [max_length - 44]
    characters, then the suffix (section 4.3). *)
Definition truncated (max_length : Z) (response : str) : str :=
  firstn (Z.to_nat (max_length - 44)) response ++ truncation_suffix.

(** Modelled from the spec: the choice of the upload adapter made by
    [send_response] in [bot/handlers.py] (not among the sources), section
    4.3: the paste adapter when the lower-cased service name is
    ["cwd.pw"], the wiki-publish collaborator otherwise.  The call made and
    the URL it gives back, if any. *)
Definition select_adapter (c : Collaborators) (response title : str)
    (user_prompt debug_info raw_response : str) : call * option str :=
  if str_eqb (lower (UPLOAD_SERVICE c)) (py "cwd.pw") then
    (CallPaste title response user_prompt debug_info raw_response,
     upload_to_cwd_pw_paste c title response user_prompt debug_info
       raw_response)
  else
    (CallWiki title response, create_telegraph_page c title response).

(** Modelled from the spec: [send_response] of [bot/handlers.py], which
    is not among the sources; section 4.3 of the specification gives the
    gate, the choice of the adapter and the fallback cascade followed
    here.  The result is the sequence of calls made on the
    collaborators; what becomes of a failure of a last edit is left
    open by the specification and is not part of the model. *)
Definition send_response (c : Collaborators) (response title : str)
    (parse_mode : option str) (user_prompt debug_info raw_response : str)
  : list call :=
  let lineCount := (count LF response + 1)%Z in
  let length := len response in
  if (LINE_THRESHOLD <? lineCount)%Z || (TELEGRAM_MAX_LENGTH c <? length)%Z
  then
    (* Upload *)
    let '(made, url) :=
      select_adapter c response title user_prompt debug_info raw_response in
    made ::
      match url with
      | Some u => [CallEdit (link_message u) None]
      | None =>
          CallEdit response None ::
            match edit_text c 0 response None with
            | Ok _ => []
            | Raise e =>
                if message_too_long e then
                  [CallEdit (truncated (TELEGRAM_MAX_LENGTH c) response)
                     None]
                else []
            end
      end
  else
    (* Direct *)
    CallEdit response parse_mode ::
      match edit_text c 0 response parse_mode with
      | Ok _ => []
      | Raise _ =>
          CallEdit response None ::
            match edit_text c 1 response None with
            | Ok _ => []
            | Raise _ => [CallEdit error_message None]
            end
      end.

Definition adapter_calls (l : list call) : list call :=
  filter is_adapter_call l.

End Gate.

End SendResponse.

(** ** The wire format of [multipart/form-data]

    The vocabulary in which the properties of the request body are stated:
    a part begins with a delimiter line, carries its disposition, an empty
    line and its content, and ends with the line break that precedes the
    next delimiter. *)

Module MultipartForm.
Import Py.

Definition quote : bytes := [x22].

Definition delimiter (boundary : bytes) : bytes := pyb "--" ++ boundary.

Definition text_part (boundary name value : bytes) : bytes :=
  delimiter boundary ++ CRLFb
  ++ pyb "Content-Disposition: form-data; name=" ++ quote ++ name ++ quote
  ++ CRLFb
  ++ CRLFb
  ++ value ++ CRLFb.

Definition file_part (boundary name filename content_type content : bytes)
  : bytes :=
  delimiter boundary ++ CRLFb
  ++ pyb "Content-Disposition: form-data; name=" ++ quote ++ name ++ quote
  ++ pyb "; filename=" ++ quote ++ filename ++ quote ++ CRLFb
  ++ pyb "Content-Type: " ++ content_type ++ CRLFb
  ++ CRLFb
  ++ content ++ CRLFb.

Definition closing (boundary : bytes) : bytes :=
  delimiter boundary ++ pyb "--" ++ CRLFb.

Inductive part : Type :=
| FilePart (name filename content_type content : bytes)
| TextPart (name value : bytes).

Definition wire (boundary : bytes) (p : part) : bytes :=
  match p with
  | FilePart name filename content_type content =>
      file_part boundary name filename content_type content
  | TextPart name value => text_part boundary name value
  end.

(** A form, part after part, closed by the last delimiter. *)
Definition render (boundary : bytes) (parts : list part) : bytes :=
  concat (map (wire boundary) parts) ++ closing boundary.

(** [body] has a text field [name] whose value is exactly [value]: the
    value runs up to the line break before the next delimiter. *)
Definition has_text_field (body boundary name value : bytes) : Prop :=
  exists before after,
    body = before ++ text_part boundary name value
                  ++ delimiter boundary ++ after.

End MultipartForm.

(** ** A reference world

    Concrete stand-ins for the library functions the adapters call, used to
    run the model on the inputs of the test suite. *)

Module Reference.
Import Py Effects.

(** [str.lower()] on ASCII text. *)
Definition lower (s : str) : str := map ascii_lower s.

(** The alphabet of RFC 4648. *)
Definition b64char (i : N) : codepoint :=
  (if i <? 26 then 65 + i
   else if i <? 52 then 71 + i
   else if i <? 62 then i - 4
   else if i =? 62 then 43
   else 47)%N.

Definition PAD : codepoint := 61%N.

(** [base64.b64encode(b).decode('utf-8')] *)
Fixpoint b64encode_text (b : bytes) : str :=
  match b with
  | [] => []
  | [x] =>
      let n := Byte.to_N x in
      [b64char (n / 4); b64char ((n mod 4) * 16); PAD; PAD]
  | [x; y] =>
      let n := (Byte.to_N x * 256 + Byte.to_N y)%N in
      [b64char (n / 1024); b64char ((n / 16) mod 64);
       b64char ((n mod 16) * 4); PAD]
  | x :: y :: z :: rest =>
      let n := (Byte.to_N x * 65536 + Byte.to_N y * 256 + Byte.to_N z)%N in
      b64char (n / 262144) :: b64char ((n / 4096) mod 64)
        :: b64char ((n / 64) mod 64) :: b64char (n mod 64)
        :: b64encode_text rest
  end.

Definition table_a2b_base64 (c : codepoint) : option N :=
  (if (65 <=? c) && (c <=? 90) then Some (c - 65)
   else if (97 <=? c) && (c <=? 122) then Some (c - 71)
   else if (48 <=? c) && (c <=? 57) then Some (c + 4)
   else if c =? 43 then Some 62
   else if c =? 47 then Some 63
   else None)%N.

Definition binascii_error (quad_pos : nat) : exn :=
  Exn BinasciiError
    (if (quad_pos =? 1)%nat
     then py "Invalid base64-encoded string"
     else py "Incorrect padding").

(** The loop of [binascii.a2b_base64] without [strict_mode]: characters
    outside the alphabet are skipped, a complete pad sequence ends the
    data, and a dangling quad is an error. *)
Fixpoint a2b_base64 (s : str) (quad_pos : nat) (leftchar : N) (pads : nat)
    (out : bytes) : outcome bytes :=
  match s with
  | [] =>
      if (quad_pos =? 0)%nat then Ok (rev out)
      else Raise (binascii_error quad_pos)
  | c :: s' =>
      if (c =? PAD)%N then
        if (2 <=? quad_pos)%nat then
          if (4 <=? quad_pos + S pads)%nat then Ok (rev out)
          else a2b_base64 s' quad_pos leftchar (S pads) out
        else a2b_base64 s' quad_pos leftchar pads out
      else
        match table_a2b_base64 c with
        | None => a2b_base64 s' quad_pos leftchar pads out
        | Some v =>
            match quad_pos with
            | 0%nat => a2b_base64 s' 1 v 0 out
            | 1%nat =>
                a2b_base64 s' 2 (v mod 16)%N 0
                  (byte_of_N (leftchar * 4 + v / 16) :: out)
            | 2%nat =>
                a2b_base64 s' 3 (v mod 4)%N 0
                  (byte_of_N (leftchar * 16 + v / 4) :: out)
            | _ =>
                a2b_base64 s' 0 0%N 0
                  (byte_of_N (leftchar * 64 + v) :: out)
            end
        end
  end.

(** [base64.b64decode(s)] on a [str]: the text must be ASCII. *)
Definition b64decode (s : str) : outcome bytes :=
  if is_ascii s then a2b_base64 s 0 0%N 0 []
  else Raise (Exn ValueError
                (py "string argument should contain only ASCII characters")).

(** A server answering every upload with [answer]. *)
Definition world (answer : outcome response) : World :=
  {| Effects.b64decode := b64decode;
     Effects.b64encode_text := b64encode_text;
     urandom := fun n => repeat x2a n;
     session_post := fun _ => answer;
     CWD_PW_API_KEY := py "test_api_key_123" |}.

Definition no_headers : str -> option str := fun _ => None.

(** The JSON answer of a successful image upload. *)
Definition success_response : response :=
  {| ok := true;
     status := 200;
     headers_get := no_headers;
     text := Ok (py "");
     json := Ok (PDict [ (py "success", PBool true);
                         (py "imageUrl",
                          PStr (py "https://cwd.pw/i/test123.png")) ]) |}.

(** A redirect of the paste endpoint. *)
Definition redirect (code : Z) (location : option str) : response :=
  {| ok := true;
     status := code;
     headers_get :=
       fun k => if str_eqb k (py "Location") then location else None;
     text := Ok (py "");
     json := Raise (Exn ContentTypeError (py "unexpected mimetype")) |}.

Definition http_error (code : Z) (body : str) : response :=
  {| ok := false;
     status := code;
     headers_get := no_headers;
     text := Ok body;
     json := Raise (Exn ContentTypeError (py "unexpected mimetype")) |}.

Definition timeout_error : exn := Exn ServerTimeoutError (py "").

(** An answer of the upload endpoint whose [imageUrl] is a number. *)
Definition numeric_image_url : response :=
  {| ok := true;
     status := 200;
     headers_get := no_headers;
     text := Ok (py "");
     json := Ok (PDict [ (py "success", PBool true);
                         (py "imageUrl", PInt 123) ]) |}.

(** Collaborators of the dispatcher whose uploads give no URL and whose
    message handle refuses the first edit as too long. *)
Definition failing_collaborators (service : str) (max_length : Z)
  : SendResponse.Collaborators :=
  {| SendResponse.UPLOAD_SERVICE := service;
     SendResponse.TELEGRAM_MAX_LENGTH := max_length;
     SendResponse.upload_to_cwd_pw_paste := fun _ _ _ _ _ => None;
     SendResponse.create_telegraph_page := fun _ _ => None;
     SendResponse.edit_text :=
       fun n _ _ =>
         match n with
         | O => Raise (Exn BadRequest (py "Message_too_long"))
         | S _ => Ok tt
         end |}.

(** *** Redirects

    [session.post] is called without [allow_redirects=False], and the
    client then follows redirects itself: an answer with a redirect status
    that names a location is not handed to the caller; the location is
    requested in its place, until an answer of another kind arrives.  The
    tenth redirect in a row is an error.  A redirect that names no location
    is handed to the caller as it is. *)

Definition redirect_statuses : list Z := [301; 302; 303; 307; 308]%Z.

Definition too_many_redirects : exn :=
  Exn ClientError (py "TooManyRedirects").

(** [redirects] is the number of redirects that may still be followed. *)
Fixpoint follow_redirects (server : str -> response) (redirects : nat)
    (url : str) : outcome response :=
  let resp := server url in
  if existsb (Z.eqb (status resp)) redirect_statuses then
    match redirects with
    | O => Raise too_many_redirects
    | S n =>
        match headers_get resp (py "Location") with
        | Some (c :: l) => follow_redirects server n (c :: l)
        | Some [] | None => Ok resp
        end
    end
  else Ok resp.

(** A world whose session is that client, in front of a server that
    answers each URL. *)
Definition following_world (server : str -> response) : World :=
  {| Effects.b64decode := b64decode;
     Effects.b64encode_text := b64encode_text;
     urandom := fun n => repeat x2a n;
     session_post := fun req => follow_redirects server 9 (url req);
     CWD_PW_API_KEY := py "test_api_key_123" |}.

(** The page of a paste. *)
Definition paste_page : response :=
  {| ok := true;
     status := 200;
     headers_get := no_headers;
     text := Ok (py "This is a test response from the AI assistant.");
     json := Raise (Exn ContentTypeError (py "unexpected mimetype")) |}.

(** The paste endpoint as the adapter expects it: it answers with a
    redirect to the new paste; the paste itself is a page. *)
Definition paste_server (code : Z) (location : str) (u : str) : response :=
  if str_eqb u (py "https://cwd.pw/api/paste")
  then redirect code (Some location)
  else paste_page.

End Reference.

(** ** The fixtures of the test suite *)

Module Fixtures.
Import Py Effects CwdUploader.

Definition api_key : str := py "test_api_key_123".
Definition test_base64_png : str := py "data:image/png;base64,dGVzdA==".
Definition test_base64_jpg : str := py "data:image/jpeg;base64,dGVzdA==".
Definition image_url : pyobj := PStr (py "https://cwd.pw/i/test123.png").

Definition upload (answer : outcome response) (base64_data : str)
  : outcome pyobj :=
  fst (run (upload_base64_image_to_cwd (Reference.world answer) base64_data
              api_key None None)).

Definition paste (answer : outcome response) : outcome pyobj :=
  fst (run (CwdUploader.upload_to_cwd_pw_paste (Reference.world answer)
              (py "Test AI Response")
              (py "This is a test response from the AI assistant.")
              [] [] [])).

End Fixtures.

(** * Properties *)

(** ** Strings *)

Module PyFacts.
Import Py.

Lemma str_eqb_eq (a b : str) : str_eqb a b = true <-> a = b.
Proof.
  revert b; induction a as [|x a IH]; intros [|y b]; simpl;
    try (split; [discriminate | congruence]); try tauto.
  rewrite andb_true_iff, N.eqb_eq, IH.
  split; [intros [-> ->]; reflexivity | intros E; inversion E; auto].
Qed.

Lemma str_eqb_refl (a : str) : str_eqb a a = true.
Proof. apply str_eqb_eq; reflexivity. Qed.

Lemma str_eqb_neq (a b : str) : str_eqb a b = false <-> a <> b.
Proof.
  rewrite <- str_eqb_eq. destruct (str_eqb a b); split; congruence.
Qed.

Lemma startswith_prefix (p r : str) : startswith (p ++ r) p = true.
Proof.
  induction p as [|c p IH]; simpl; [reflexivity|].
  rewrite N.eqb_refl, IH; reflexivity.
Qed.

Lemma startswith_inv (s p : str) :
  startswith s p = true -> exists r, s = p ++ r.
Proof.
  revert s; induction p as [|c p IH]; intros s H; simpl in *.
  - exists s; reflexivity.
  - destruct s as [|x s]; [discriminate|].
    apply andb_true_iff in H as [E H]. apply N.eqb_eq in E; subst x.
    destruct (IH _ H) as [r ->]. exists r; reflexivity.
Qed.

(** A match of [old] puts every character of [old] into the text. *)
Lemma startswith_In (s p : str) (c : codepoint) :
  startswith s p = true -> In c p -> In c s.
Proof.
  intros H Hc. destruct (startswith_inv _ _ H) as [r ->].
  apply in_or_app; left; exact Hc.
Qed.

Lemma endswith_suffix (a suffix : str) : endswith (a ++ suffix) suffix = true.
Proof.
  unfold endswith. rewrite rev_app_distr. apply startswith_prefix.
Qed.

(** *** [split] *)

Lemma split_nonempty (sep : codepoint) (s : str) : split sep s <> [].
Proof.
  destruct s as [|c s]; simpl; [discriminate|].
  destruct (c =? sep)%N; [discriminate|].
  destruct (split sep s); discriminate.
Qed.

Lemma split_no_sep (sep : codepoint) (s : str) :
  ~ In sep s -> split sep s = [s].
Proof.
  induction s as [|c s IH]; intros H; simpl; [reflexivity|].
  destruct (N.eqb_spec c sep) as [->|_].
  - exfalso; apply H; left; reflexivity.
  - rewrite IH; [reflexivity|]. intros Hin; apply H; right; exact Hin.
Qed.

Lemma split_cut (sep : codepoint) (a b : str) :
  ~ In sep a -> split sep (a ++ sep :: b) = a :: split sep b.
Proof.
  induction a as [|c a IH]; intros H; simpl.
  - rewrite N.eqb_refl; reflexivity.
  - destruct (N.eqb_spec c sep) as [->|_].
    + exfalso; apply H; left; reflexivity.
    + rewrite IH; [reflexivity|]. intros Hin; apply H; right; exact Hin.
Qed.

Lemma split_single_inv (sep : codepoint) (s x : str) :
  split sep s = [x] -> s = x /\ ~ In sep x.
Proof.
  revert x; induction s as [|c s IH]; intros x H; simpl in H.
  - inversion H; subst. split; [reflexivity | intros []].
  - destruct (N.eqb_spec c sep) as [->|Hne].
    + inversion H as [[Hx Hs]]. exfalso; exact (split_nonempty _ _ Hs).
    + destruct (split sep s) as [|w ws] eqn:E.
      * exfalso; exact (split_nonempty _ _ E).
      * inversion H; subst. destruct (IH w eq_refl) as [-> Hn].
        split; [reflexivity|]. intros [Hc|Hin]; [congruence | exact (Hn Hin)].
Qed.

(** *** [split] with [maxsplit=1] *)

Lemma split1_no_sep (sep : codepoint) (s : str) :
  ~ In sep s -> split1 sep s = [s].
Proof.
  induction s as [|c s IH]; intros H; simpl; [reflexivity|].
  destruct (N.eqb_spec c sep) as [->|_].
  - exfalso; apply H; left; reflexivity.
  - rewrite IH; [reflexivity|]. intros Hin; apply H; right; exact Hin.
Qed.

Lemma split1_cut (sep : codepoint) (a b : str) :
  ~ In sep a -> split1 sep (a ++ sep :: b) = [a; b].
Proof.
  induction a as [|c a IH]; intros H; simpl.
  - rewrite N.eqb_refl; reflexivity.
  - destruct (N.eqb_spec c sep) as [->|_].
    + exfalso; apply H; left; reflexivity.
    + rewrite IH; [reflexivity|]. intros Hin; apply H; right; exact Hin.
Qed.

(** Python's [split(sep, 1)] gives one piece when there is no separator
    and two when there is one: the text before the first separator and
    everything after it. *)
Lemma split1_cases (sep : codepoint) (s : str) :
  (~ In sep s /\ split1 sep s = [s]) \/
  (exists a b, s = a ++ sep :: b /\ ~ In sep a /\ split1 sep s = [a; b]).
Proof.
  induction s as [|c s IH]; simpl.
  - left; split; [intros [] | reflexivity].
  - destruct (N.eqb_spec c sep) as [->|Hne].
    + right. exists [], s. split; [reflexivity|]. split; [intros [] | reflexivity].
    + destruct IH as [[Hn ->]|(a & b & -> & Hn & ->)].
      * left. split; [|reflexivity].
        intros [Hc|Hin]; [congruence | exact (Hn Hin)].
      * right. exists (c :: a), b. split; [reflexivity|].
        split; [|reflexivity].
        intros [Hc|Hin]; [congruence | exact (Hn Hin)].
Qed.

(** *** [replace] *)

(** Where a character of [old] is missing, nothing is replaced. *)
Lemma replace_from_absent (old new s : str) (c : codepoint) :
  In c old -> ~ In c s -> replace_from old new 0 s = s.
Proof.
  intros Hold. induction s as [|x s IH]; intros Hs; simpl; [reflexivity|].
  destruct (startswith (x :: s) old) eqn:E.
  - exfalso. apply Hs. exact (startswith_In _ _ c E Hold).
  - rewrite IH; [reflexivity|]. intros Hin; apply Hs; right; exact Hin.
Qed.

(** *** [encode] *)

Lemma encode_utf8_app (a b : str) :
  encode_utf8 (a ++ b) =
  match encode_utf8 a with
  | Raise e => Raise e
  | Ok x =>
      match encode_utf8 b with
      | Raise e => Raise e
      | Ok y => Ok (x ++ y)
      end
  end.
Proof.
  induction a as [|c a IH]; simpl.
  - destruct (encode_utf8 b); reflexivity.
  - destruct (utf8_char c) as [u|e]; [|reflexivity].
    rewrite IH. destruct (encode_utf8 a) as [x|e]; [|reflexivity].
    destruct (encode_utf8 b) as [y|e]; [|reflexivity].
    rewrite app_assoc; reflexivity.
Qed.

Lemma encode_utf8_ok_app (a b : str) (x y : bytes) :
  encode_utf8 a = Ok x -> encode_utf8 b = Ok y ->
  encode_utf8 (a ++ b) = Ok (x ++ y).
Proof. intros Ha Hb. rewrite encode_utf8_app, Ha, Hb; reflexivity. Qed.

(** ASCII text is encoded character by character. *)
Lemma encode_utf8_ascii (s : str) :
  is_ascii s = true -> encode_utf8 s = Ok (map byte_of_N s).
Proof.
  induction s as [|c s IH]; simpl; [reflexivity|].
  intros H. apply andb_true_iff in H as [Hc Hs].
  unfold utf8_char. rewrite Hc, (IH Hs). reflexivity.
Qed.

End PyFacts.

(** ** The upload adapters *)

Module UploaderFacts.
Import Py Effects CwdUploader PyFacts MultipartForm.
Local Open Scope io_scope.

#[local] Arguments startswith : simpl never.
#[local] Arguments split : simpl never.
#[local] Arguments split1 : simpl never.
#[local] Arguments replace : simpl never.
#[local] Arguments str_in : simpl never.
#[local] Arguments str_eqb : simpl never.
#[local] Arguments py : simpl never.

(** *** No exception leaves an adapter *)

Lemma try_except_never_raises {A} (body : io A) (handler : exn -> io A) :
  (forall e, never_raises (handler e)) ->
  never_raises (try_except body handler).
Proof.
  intros H t. unfold try_except.
  destruct (body t) as [[a|e] t'].
  - exists a, t'; reflexivity.
  - apply H.
Qed.

Lemma log_then_none_never_raises (lvl : level) (message : str)
    (args : list log_arg) :
  never_raises (log lvl message args ;; ret PNone).
Proof. intros t. eexists _, _. reflexivity. Qed.

Lemma upload_base64_image_to_cwd_never_raises (w : World)
    (base64_data api_key : str) (model prompt : option str) :
  never_raises (upload_base64_image_to_cwd w base64_data api_key model prompt).
Proof.
  apply try_except_never_raises. intros e.
  apply log_then_none_never_raises.
Qed.

Lemma upload_image_bytes_to_cwd_never_raises (w : World)
    (image_bytes : bytes) (api_key mime_type : str)
    (model prompt : option str) :
  never_raises
    (upload_image_bytes_to_cwd w image_bytes api_key mime_type model prompt).
Proof.
  apply try_except_never_raises. intros e.
  apply log_then_none_never_raises.
Qed.

Lemma upload_to_cwd_pw_paste_never_raises (w : World)
    (title content user_prompt debug_info raw_response : str) :
  never_raises
    (upload_to_cwd_pw_paste w title content user_prompt debug_info
       raw_response).
Proof.
  apply try_except_never_raises. intros e.
  apply log_then_none_never_raises.
Qed.

(** *** The checks on the data URI *)

Lemma str_in_inv (x : str) (l : list str) : str_in x l = true -> In x l.
Proof.
  unfold str_in. rewrite existsb_exists. intros (y & Hy & E).
  apply str_eqb_eq in E; subst; exact Hy.
Qed.

(** The MIME types that pass the check are the four accepted ones. *)
Lemma check_mime_type_accepted (mime_match pure_base64 m e p : str) :
  check_mime_type mime_match pure_base64 = Ok (Accepted m e p) ->
  m = mime_match /\ p = pure_base64 /\ In (m, e) accepted_pairs.
Proof.
  unfold check_mime_type.
  destruct (startswith mime_match (py "image/")) eqn:Emm; simpl;
    [|intros H; discriminate H].
  destruct (startswith_inv _ _ Emm) as [e0 ->].
  change (py "image/" ++ e0) with (py "image" ++ slash :: e0).
  rewrite split_cut by (vm_compute; intuition discriminate).
  destruct (split slash e0) as [|x [|y l]] eqn:Ee0; simpl;
    try (intros H; discriminate H).
  apply split_single_inv in Ee0 as [-> _].
  unfold normalize_extension.
  destruct (str_eqb x (py "jpeg")) eqn:Ej.
  - apply str_eqb_eq in Ej; subst x. simpl. intros H; inversion H; subst.
    repeat split. right; left; reflexivity.
  - destruct (str_in x supported_formats) eqn:Ein; simpl;
      [|intros H; discriminate H].
    intros H; inversion H; subst. repeat split.
    apply str_in_inv in Ein.
    destruct Ein as [<-|[<-|[<-|[]]]]; simpl; auto.
Qed.

(** What an accepted input looks like: the payload is what follows the
    first comma, the MIME type is read off the text before the first
    semicolon of the header, and type and extension form one of the four
    accepted pairs. *)
Lemma parse_data_uri_accepted
    (base64_data mime_match extension pure_base64 : str) :
  parse_data_uri base64_data = Ok (Accepted mime_match extension pure_base64) ->
  exists header first rest,
    split1 comma base64_data = [header; pure_base64] /\
    split semicolon header = first :: rest /\
    mime_match = replace first (py "data:") (py "") /\
    In (mime_match, extension) accepted_pairs.
Proof.
  unfold parse_data_uri.
  destruct (startswith base64_data (py "data:image/")); simpl;
    [|intros H; discriminate H].
  destruct (split1_cases comma base64_data)
    as [[_ E1]|(h & p & Hs & Hn & E1)];
    rewrite E1; simpl; [intros H; discriminate H|].
  destruct (split semicolon h) as [|first rest] eqn:Esplit; simpl;
    [intros H; discriminate H|].
  intros H. apply check_mime_type_accepted in H as (-> & -> & Hin).
  exists h, first, rest. auto.
Qed.

(** *** Encoding the parts of the form *)

Lemma byte_of_N_of_ascii (a : ascii) :
  byte_of_N (N_of_ascii a) = byte_of_ascii a.
Proof. destruct a as [[] [] [] [] [] [] [] []]; reflexivity. Qed.

Lemma map_byte_of_N_py (s : string) : map byte_of_N (py s) = pyb s.
Proof.
  unfold py, pyb. induction s as [|a s IH]; simpl; [reflexivity|].
  rewrite byte_of_N_of_ascii, IH; reflexivity.
Qed.

Lemma encode_py (s : string) :
  is_ascii (py s) = true -> encode_utf8 (py s) = Ok (pyb s).
Proof.
  intros H. rewrite (encode_utf8_ascii _ H), map_byte_of_N_py. reflexivity.
Qed.

Lemma encode_CRLF : encode_utf8 CRLF = Ok CRLFb.
Proof. reflexivity. Qed.

Lemma encode_dquote : encode_utf8 dquote = Ok quote.
Proof. reflexivity. Qed.

(** Encodes a concatenation piece by piece. *)
Ltac encode :=
  lazymatch goal with
  | |- encode_utf8 (?a ++ ?b) = _ =>
      eapply encode_utf8_ok_app; [encode | encode]
  | |- encode_utf8 (py ?s) = _ => apply encode_py; reflexivity
  | |- encode_utf8 CRLF = _ => exact encode_CRLF
  | |- encode_utf8 dquote = _ => exact encode_dquote
  | |- encode_utf8 _ = _ => eassumption
  end.

(** Lays a rendered form out as one concatenation. *)
Ltac flatten :=
  unfold render, wire, text_part, file_part, closing, delimiter;
  cbn [concat map];
  repeat rewrite app_nil_r; repeat rewrite <- app_assoc.

(** The body built by the adapter is the form with its five parts. *)
Lemma multipart_body_wire (boundary extension mime_match : str)
    (binary_data : bytes) (api_key : str) (model prompt : option str)
    (bb eb mb kb vb pb : bytes) :
  encode_utf8 boundary = Ok bb ->
  encode_utf8 extension = Ok eb ->
  encode_utf8 mime_match = Ok mb ->
  encode_utf8 api_key = Ok kb ->
  encode_utf8 (or_empty model) = Ok vb ->
  encode_utf8 (or_empty prompt) = Ok pb ->
  multipart_body boundary extension mime_match binary_data api_key model
    prompt =
  Ok (render bb
        [ FilePart (pyb "image") (pyb "upload." ++ eb) mb binary_data;
          TextPart (pyb "api_key") kb;
          TextPart (pyb "ai_generated") (pyb "true");
          TextPart (pyb "model") vb;
          TextPart (pyb "prompt") pb ]).
Proof.
  intros Hb He Hm Hk Hv Hp. unfold multipart_body.
  repeat match goal with
  | |- context [encode_utf8 (?a ++ ?b)] =>
      let E := fresh "E" in
      eassert (E : encode_utf8 (a ++ b) = Ok _) by encode;
      rewrite E; clear E
  end.
  f_equal. flatten. reflexivity.
Qed.

Lemma hexdigit_ascii (d : N) : (d < 16)%N -> (hexdigit d <? 128)%N = true.
Proof.
  intros H. unfold hexdigit. apply N.ltb_lt.
  destruct (d <? 10)%N; lia.
Qed.

Lemma hexlify_ascii (b : bytes) : is_ascii (hexlify b) = true.
Proof.
  induction b as [|x b IH]; simpl; [reflexivity|].
  pose proof (Byte.to_N_bounded x) as Hx.
  rewrite !hexdigit_ascii; [exact IH| |].
  - apply N.mod_upper_bound; discriminate.
  - apply N.Div0.div_lt_upper_bound; lia.
Qed.

Lemma is_ascii_app (a b : str) :
  is_ascii (a ++ b) = is_ascii a && is_ascii b.
Proof. unfold is_ascii; apply forallb_app. Qed.

(** The boundary is ASCII text, whatever the random bytes are. *)
Lemma new_boundary_encoded (w : World) :
  encode_utf8 (new_boundary w) = Ok (map byte_of_N (new_boundary w)).
Proof.
  apply encode_utf8_ascii. unfold new_boundary, token_hex.
  rewrite is_ascii_app, hexlify_ascii. reflexivity.
Qed.

Lemma accepted_pair_encoded (mime_match extension : str) :
  In (mime_match, extension) accepted_pairs ->
  encode_utf8 mime_match = Ok (map byte_of_N mime_match) /\
  encode_utf8 extension = Ok (map byte_of_N extension).
Proof.
  intros H. split; apply encode_utf8_ascii;
    repeat (destruct H as [H|H]; [inversion H; reflexivity|]);
    destruct H.
Qed.

(** An accepted MIME type has one of the four subtypes. *)
Lemma accepted_pair_subtype (sub extension : str) :
  In (py "image/" ++ sub, extension) accepted_pairs ->
  str_in (normalize_extension sub) supported_formats = true.
Proof.
  intros H.
  destruct H as [H|[H|[H|[H|[]]]]];
    apply (f_equal fst) in H; cbv in H; inversion H; reflexivity.
Qed.

(** *** One call of the image adapter *)

Lemma posts_app (t u : trace) : posts (t ++ u) = posts t ++ posts u.
Proof. unfold posts. apply flat_map_app. Qed.

(** The run of the adapter, stage by stage. *)
Lemma run_upload_base64 (w : World) (d k : str) (model prompt : option str) :
  run (upload_base64_image_to_cwd w d k model prompt) =
  match parse_data_uri d with
  | Raise e => upload_failed e []
  | Ok (Rejected message args) => (Ok PNone, [EvLog ERROR message args])
  | Ok (Accepted mime_match extension pure_base64) =>
      match b64decode w pure_base64 with
      | Raise e =>
          (Ok PNone,
           [EvLog ERROR (py "Failed to decode base64 data: ") [AExn e]])
      | Ok binary_data =>
          match multipart_body (new_boundary w) extension mime_match
                  binary_data k model prompt with
          | Raise e => upload_failed e []
          | Ok body =>
              let req := upload_request (new_boundary w) body in
              match session_post w req with
              | Raise e => upload_failed e [EvPost req]
              | Ok resp =>
                  try_except (read_upload_response resp) upload_failed
                    [EvPost req]
              end
          end
      end
  end.
Proof.
  unfold run, upload_base64_image_to_cwd, try_except, bind, lift.
  destruct (parse_data_uri d) as [[message args|mm ext p]|e]; try reflexivity.
  destruct (b64decode w p) as [bin|e]; try reflexivity.
  destruct (multipart_body _ _ _ _ _ _ _) as [body|e]; try reflexivity.
  unfold post, bind, emit, lift; simpl.
  destruct (session_post w _) as [resp|e]; reflexivity.
Qed.

(** Reading the answer adds one log record and nothing else. *)
Lemma read_upload_response_run (resp : response) (t : trace) :
  exists v lvl message args,
    try_except (read_upload_response resp) upload_failed t =
    (Ok v, t ++ [EvLog lvl message args]).
Proof.
  unfold try_except, read_upload_response, upload_failed, bind, lift, log,
    emit, ret.
  destruct (ok resp); simpl.
  - destruct (json resp) as [result|e]; [|eauto 6].
    destruct (get result (py "success")) as [success|e]; [|eauto 6].
    destruct (truthy success); simpl; [|eauto 6].
    destruct (get result (py "imageUrl")) as [image_url|e]; [|eauto 6].
    destruct (truthy image_url); eauto 6.
  - destruct (text resp) as [error_text|e]; eauto 6.
Qed.

(** Once the body is built, the request is sent, and it is the only one. *)
Lemma upload_posts_accepted (w : World) (d k : str)
    (model prompt : option str) (mime_match extension pure_base64 : str)
    (binary_data body : bytes) :
  parse_data_uri d = Ok (Accepted mime_match extension pure_base64) ->
  b64decode w pure_base64 = Ok binary_data ->
  multipart_body (new_boundary w) extension mime_match binary_data k model
    prompt = Ok body ->
  posts (snd (run (upload_base64_image_to_cwd w d k model prompt))) =
  [upload_request (new_boundary w) body].
Proof.
  intros Hp Hd Hb. rewrite run_upload_base64, Hp, Hd, Hb. cbv zeta.
  destruct (session_post w _) as [resp|e]; [|reflexivity].
  destruct (read_upload_response_run resp
              [EvPost (upload_request (new_boundary w) body)])
    as (v & lvl & message & args & ->).
  reflexivity.
Qed.

(** Shared: a valid input leads to exactly one request, whose body is the
    form with the five parts. *)
Lemma valid_upload_request (w : World) (d k : str)
    (model prompt : option str) (mime_match extension pure_base64 : str)
    (binary_data kb vb pb : bytes) :
  parse_data_uri d = Ok (Accepted mime_match extension pure_base64) ->
  b64decode w pure_base64 = Ok binary_data ->
  encode_utf8 k = Ok kb ->
  encode_utf8 (or_empty model) = Ok vb ->
  encode_utf8 (or_empty prompt) = Ok pb ->
  posts (snd (run (upload_base64_image_to_cwd w d k model prompt))) =
  [upload_request (new_boundary w)
     (render (map byte_of_N (new_boundary w))
        [ FilePart (pyb "image")
            (pyb "upload." ++ map byte_of_N extension)
            (map byte_of_N mime_match) binary_data;
          TextPart (pyb "api_key") kb;
          TextPart (pyb "ai_generated") (pyb "true");
          TextPart (pyb "model") vb;
          TextPart (pyb "prompt") pb ])].
Proof.
  intros Hp Hd Hk Hv Hq.
  destruct (parse_data_uri_accepted _ _ _ _ Hp) as (h & f & r & _ & _ & _ & Hin).
  destruct (accepted_pair_encoded _ _ Hin) as [Hm He].
  eapply upload_posts_accepted; eauto.
  apply multipart_body_wire; auto using new_boundary_encoded.
Qed.

Lemma wire_delimited (bb : bytes) (p : part) :
  exists tail, wire bb p = delimiter bb ++ tail.
Proof.
  destruct p; eexists; unfold wire, file_part, text_part; reflexivity.
Qed.

(** A text part of a rendered form is a field of the body: what follows it
    is the delimiter of the next part or of the end. *)
Lemma render_has_text_field (bb : bytes) (pre : list part)
    (name value : bytes) (post : list part) :
  has_text_field (render bb (pre ++ TextPart name value :: post)) bb name
    value.
Proof.
  assert (exists tail,
            concat (map (wire bb) post) ++ closing bb = delimiter bb ++ tail)
    as [tail E].
  { destruct post as [|p post]; simpl.
    - exists (pyb "--" ++ CRLFb); reflexivity.
    - destruct (wire_delimited bb p) as [tl ->].
      eexists. rewrite <- !app_assoc. reflexivity. }
  exists (concat (map (wire bb) pre)), tail.
  unfold render. rewrite map_app, concat_app. cbn [map concat wire].
  rewrite <- !app_assoc. rewrite E. reflexivity.
Qed.


(** *** Inputs of a known shape *)

Lemma startswith_app_l (s p r : str) :
  startswith s p = true -> startswith (s ++ r) p = true.
Proof.
  intros H. destruct (startswith_inv _ _ H) as [x ->].
  rewrite <- app_assoc. apply startswith_prefix.
Qed.

Lemma not_in_app (c : codepoint) (a b : str) :
  ~ In c a -> ~ In c b -> ~ In c (a ++ b).
Proof. intros Ha Hb H. apply in_app_or in H as [H|H]; auto. Qed.

(** A data URI whose header is [first], then parameters, then the comma
    and the payload. *)
Lemma parse_data_uri_shape (first params payload : str) :
  startswith first (py "data:image/") = true ->
  ~ In comma first -> ~ In semicolon first -> ~ In comma params ->
  params = [] \/ (exists r, params = semicolon :: r) ->
  parse_data_uri (first ++ params ++ comma :: payload) =
  check_mime_type (replace first (py "data:") (py "")) payload.
Proof.
  intros Hs Hc Hsc Hp Hparams. unfold parse_data_uri.
  rewrite (startswith_app_l _ _ _ Hs). simpl.
  rewrite app_assoc, split1_cut by (apply not_in_app; assumption). simpl.
  destruct Hparams as [->|[r ->]].
  - rewrite app_nil_r, split_no_sep by assumption. reflexivity.
  - rewrite split_cut by assumption. reflexivity.
Qed.

(** Without a comma the unpacking of line 33 fails. *)
Lemma parse_data_uri_no_comma (d : str) :
  startswith d (py "data:image/") = true -> ~ In comma d ->
  exists e, parse_data_uri d = Raise e.
Proof.
  intros Hs Hc. unfold parse_data_uri. rewrite Hs. simpl.
  rewrite split1_no_sep by assumption. simpl. eexists; reflexivity.
Qed.

Lemma replace_data_prefix (sub : str) :
  ~ In colon sub ->
  replace (py "data:image/" ++ sub) (py "data:") (py "") = py "image/" ++ sub.
Proof.
  intros H. unfold replace. vm_compute.
  do 6 f_equal.
  change (replace_from (py "data:") (py "") 0 sub = sub).
  apply (replace_from_absent _ _ _ colon); [|exact H].
  do 4 right; left; reflexivity.
Qed.

Lemma check_mime_type_subtype (sub payload : str) :
  ~ In slash sub ->
  check_mime_type (py "image/" ++ sub) payload =
  if str_in (normalize_extension sub) supported_formats
  then Ok (Accepted (py "image/" ++ sub) (normalize_extension sub) payload)
  else Ok (Rejected (py "Unsupported image format: ")
             [AStr (normalize_extension sub)]).
Proof.
  intros H. unfold check_mime_type.
  replace (split slash (py "image/" ++ sub)) with [py "image"; sub].
  - rewrite startswith_prefix. cbn [negb length Nat.eqb item nth_error].
    destruct (str_in (normalize_extension sub) supported_formats);
      reflexivity.
  - change (py "image/" ++ sub) with (py "image" ++ slash :: sub).
    rewrite split_cut by (vm_compute; intuition discriminate).
    rewrite split_no_sep by assumption. reflexivity.
Qed.

Lemma is_subtype_name_inv (sub : str) :
  is_subtype_name sub = true ->
  ~ In semicolon sub /\ ~ In comma sub /\ ~ In slash sub /\ ~ In colon sub.
Proof.
  unfold is_subtype_name. rewrite forallb_forall. intros H.
  repeat split; intros Hin; apply H in Hin; vm_compute in Hin; discriminate.
Qed.

(** The three ways an adapter call ends before the request. *)
Lemma run_upload_rejected (w : World) (d k : str) (model prompt : option str)
    (message : str) (args : list log_arg) :
  parse_data_uri d = Ok (Rejected message args) ->
  run (upload_base64_image_to_cwd w d k model prompt) =
  (Ok PNone, [EvLog ERROR message args]).
Proof. intros H. rewrite run_upload_base64, H. reflexivity. Qed.

Lemma run_upload_parse_raises (w : World) (d k : str)
    (model prompt : option str) (e : exn) :
  parse_data_uri d = Raise e ->
  run (upload_base64_image_to_cwd w d k model prompt) =
  (Ok PNone, [EvLog ERROR (py "Error uploading image to cwd.pw: ") [AExn e]]).
Proof. intros H. rewrite run_upload_base64, H. reflexivity. Qed.

Lemma run_upload_decode_raises (w : World) (d k : str)
    (model prompt : option str) (m x p : str) (e : exn) :
  parse_data_uri d = Ok (Accepted m x p) ->
  b64decode w p = Raise e ->
  run (upload_base64_image_to_cwd w d k model prompt) =
  (Ok PNone, [EvLog ERROR (py "Failed to decode base64 data: ") [AExn e]]).
Proof. intros H1 H2. rewrite run_upload_base64, H1, H2. reflexivity. Qed.

Lemma not_in_literal_app (c : codepoint) (lit sub : str) :
  existsb (N.eqb c) lit = false -> ~ In c sub -> ~ In c (lit ++ sub).
Proof.
  intros Hl Hs. apply not_in_app; [|exact Hs].
  intros Hin. assert (existsb (N.eqb c) lit = true) as E.
  { apply existsb_exists. exists c. split; [exact Hin | apply N.eqb_refl]. }
  congruence.
Qed.


(** *** The paste adapter *)

(** The run of the paste adapter, case by case. *)
Lemma run_upload_to_cwd_pw_paste (w : World)
    (title content user_prompt debug_info raw_response : str) :
  let req := paste_request w title content user_prompt debug_info
               raw_response in
  let started :=
    [ EvLog INFO (py "Uploading to cwd.pw pastebin, content length: ")
        [AInt (len content)];
      EvPost req ] in
  run (upload_to_cwd_pw_paste w title content user_prompt debug_info
         raw_response) =
  match session_post w req with
  | Raise e => paste_failed e started
  | Ok resp =>
      if existsb (Z.eqb (status resp)) [301; 302]%Z then
        match headers_get resp (py "Location") with
        | Some (c :: l) =>
            (Ok (PStr (c :: l)),
             started ++ [EvLog INFO (py "cwd.pw paste created: ")
                           [AObj (PStr (c :: l))]])
        | Some [] | None => (Ok PNone, started)
        end
      else
        match text resp with
        | Ok error_text =>
            (Ok PNone,
             started ++ [EvLog ERROR (py "Failed to create cwd.pw paste: HTTP ")
                           [AInt (status resp); AStr error_text]])
        | Raise e => paste_failed e started
        end
  end.
Proof.
  intros req started.
  cbv [run upload_to_cwd_pw_paste paste_failed try_except bind post log emit
         lift ret].
  fold req.
  destruct (session_post w req) as [resp|e]; [|reflexivity].
  destruct (existsb (Z.eqb (status resp)) [301; 302]%Z).
  - destruct (headers_get resp (py "Location")) as [[|c l]|]; reflexivity.
  - destruct (text resp) as [error_text|e]; reflexivity.
Qed.

Lemma redirect_status (z : Z) :
  existsb (Z.eqb z) [301; 302]%Z = true <-> (z = 301 \/ z = 302)%Z.
Proof.
  simpl. rewrite !orb_true_iff, !Z.eqb_eq. intuition discriminate.
Qed.

(** A client that follows redirects never hands back a redirect that names
    a location. *)
Lemma follow_redirects_answer (server : str -> response) (redirects : nat)
    (u : str) (resp : response) :
  Reference.follow_redirects server redirects u = Ok resp ->
  existsb (Z.eqb (status resp)) Reference.redirect_statuses = true ->
  headers_get resp (py "Location") = None \/
  headers_get resp (py "Location") = Some [].
Proof.
  revert u. induction redirects as [|n IH]; intros u;
    cbn [Reference.follow_redirects];
    destruct (existsb (Z.eqb (status (server u))) Reference.redirect_statuses)
      eqn:Es.
  - intros H; discriminate H.
  - intros H Hr; inversion H; subst resp. congruence.
  - destruct (headers_get (server u) (py "Location")) as [[|c l]|] eqn:El.
    + intros H _; inversion H; subst resp. right; exact El.
    + apply IH.
    + intros H _; inversion H; subst resp. left; exact El.
  - intros H Hr; inversion H; subst resp. congruence.
Qed.

Lemma redirect_status_followed (z : Z) :
  existsb (Z.eqb z) [301; 302]%Z = true ->
  existsb (Z.eqb z) Reference.redirect_statuses = true.
Proof.
  intros H. apply redirect_status in H.
  destruct H as [->| ->]; reflexivity.
Qed.

End UploaderFacts.

(** ** The dispatcher *)

Module DispatchFacts.
Import Py SendResponse PyFacts.

Lemma count_nonneg (c : codepoint) (s : str) : (0 <= count c s)%Z.
Proof.
  induction s as [|x s IH]; simpl; [lia|].
  destruct (x =? c)%N; lia.
Qed.

Lemma gate_spec (lc rl m : Z) :
  (22 <? lc)%Z || (m <? rl)%Z = true <-> (lc > 22 \/ rl > m)%Z.
Proof. rewrite orb_true_iff, !Z.ltb_lt. lia. Qed.

Lemma gate_false (lc rl m : Z) :
  (22 <? lc)%Z || (m <? rl)%Z = false <-> ~ (lc > 22 \/ rl > m)%Z.
Proof.
  rewrite <- gate_spec. destruct ((22 <? lc)%Z || (m <? rl)%Z);
    split; congruence.
Qed.

Section Dispatch.
Variable lower : str -> str.

(** On the Upload branch the first call is the chosen adapter. *)
Lemma send_response_upload (c : Collaborators) (response title : str)
    (parse_mode : option str) (user_prompt debug_info raw_response : str) :
  (line_count response > 22 \/ len response > TELEGRAM_MAX_LENGTH c)%Z ->
  let chosen := select_adapter lower c response title user_prompt debug_info
                  raw_response in
  send_response lower c response title parse_mode user_prompt debug_info
    raw_response =
  fst chosen ::
    match snd chosen with
    | Some u => [CallEdit (link_message u) None]
    | None =>
        CallEdit response None ::
          match edit_text c 0 response None with
          | Ok _ => []
          | Raise e =>
              if message_too_long e then
                [CallEdit (truncated (TELEGRAM_MAX_LENGTH c) response) None]
              else []
          end
    end.
Proof.
  intros Hover chosen. unfold send_response.
  apply gate_spec in Hover. unfold line_count in Hover.
  unfold LINE_THRESHOLD. rewrite Hover. fold chosen.
  destruct chosen as [made url]. reflexivity.
Qed.

(** On the Direct path every call is an edit. *)
Lemma send_response_direct (c : Collaborators) (response title : str)
    (parse_mode : option str) (user_prompt debug_info raw_response : str) :
  ~ (line_count response > 22 \/ len response > TELEGRAM_MAX_LENGTH c)%Z ->
  send_response lower c response title parse_mode user_prompt debug_info
    raw_response =
  CallEdit response parse_mode ::
    match edit_text c 0 response parse_mode with
    | Ok _ => []
    | Raise _ =>
        CallEdit response None ::
          match edit_text c 1 response None with
          | Ok _ => []
          | Raise _ => [CallEdit error_message None]
          end
    end.
Proof.
  intros Hdirect. unfold send_response.
  apply gate_false in Hdirect. unfold line_count in Hdirect.
  unfold LINE_THRESHOLD. rewrite Hdirect. reflexivity.
Qed.

Lemma select_adapter_is_adapter (c : Collaborators) (response title : str)
    (user_prompt debug_info raw_response : str) :
  is_adapter_call
    (fst (select_adapter lower c response title user_prompt debug_info
            raw_response)) = true.
Proof.
  unfold select_adapter.
  destruct (str_eqb (lower (UPLOAD_SERVICE c)) (py "cwd.pw")); reflexivity.
Qed.

Lemma adapter_calls_upload (c : Collaborators) (response title : str)
    (parse_mode : option str) (user_prompt debug_info raw_response : str) :
  (line_count response > 22 \/ len response > TELEGRAM_MAX_LENGTH c)%Z ->
  adapter_calls
    (send_response lower c response title parse_mode user_prompt debug_info
       raw_response) =
  [fst (select_adapter lower c response title user_prompt debug_info
          raw_response)].
Proof.
  intros Hover. rewrite send_response_upload by exact Hover. cbv zeta.
  unfold adapter_calls. cbn [filter].
  rewrite select_adapter_is_adapter.
  destruct (snd (select_adapter _ _ _ _ _ _ _)); [reflexivity|].
  cbn [filter is_adapter_call].
  destruct (edit_text c 0 response None) as [|e]; [reflexivity|].
  destruct (message_too_long e); reflexivity.
Qed.

Lemma truncation_suffix_length : len truncation_suffix = 43%Z.
Proof. reflexivity. Qed.

End Dispatch.

End DispatchFacts.

(** ** The test suite, run on the model *)

Module TestSuite.
Import Py Effects CwdUploader SendResponse Fixtures.

Example test_upload_base64_image_success_png :
  upload (Ok Reference.success_response) test_base64_png = Ok image_url.
Proof. reflexivity. Qed.

Example test_upload_base64_image_success_jpeg :
  upload (Ok Reference.success_response) test_base64_jpg = Ok image_url.
Proof. reflexivity. Qed.

Example test_upload_base64_image_invalid_format :
  upload (Ok Reference.success_response) (py "not a valid data uri")
  = Ok PNone.
Proof. reflexivity. Qed.

Example test_upload_base64_image_unsupported_mime_type :
  upload (Ok Reference.success_response) (py "data:text/plain;base64,dGVzdA==")
  = Ok PNone.
Proof. reflexivity. Qed.

Example test_upload_base64_image_unsupported_extension :
  upload (Ok Reference.success_response) (py "data:image/bmp;base64,dGVzdA==")
  = Ok PNone.
Proof. reflexivity. Qed.

Example test_upload_base64_image_invalid_base64 :
  upload (Ok Reference.success_response)
    (py "data:image/png;base64,invalid_base64_data!")
  = Ok PNone.
Proof. reflexivity. Qed.

Example test_upload_base64_image_http_error :
  upload (Ok (Reference.http_error 400 (py "Bad Request"))) test_base64_png
  = Ok PNone.
Proof. reflexivity. Qed.

Example test_upload_base64_image_timeout :
  upload (Raise Reference.timeout_error) test_base64_png = Ok PNone.
Proof. reflexivity. Qed.

Example test_upload_image_bytes_success :
  fst (run (upload_image_bytes_to_cwd
              (Reference.world (Ok Reference.success_response))
              (pyb "test") api_key (py "image/png") None None))
  = Ok image_url.
Proof. reflexivity. Qed.

Example test_upload_to_cwd_pw_paste_success_301 :
  paste (Ok (Reference.redirect 301 (Some (py "https://cwd.pw/p/test123"))))
  = Ok (PStr (py "https://cwd.pw/p/test123")).
Proof. reflexivity. Qed.

Example test_upload_to_cwd_pw_paste_success_302 :
  paste (Ok (Reference.redirect 302 (Some (py "https://cwd.pw/p/test456"))))
  = Ok (PStr (py "https://cwd.pw/p/test456")).
Proof. reflexivity. Qed.

Example test_upload_to_cwd_pw_paste_no_location_header :
  paste (Ok (Reference.redirect 301 None)) = Ok PNone.
Proof. reflexivity. Qed.

Example test_upload_to_cwd_pw_paste_http_error :
  paste (Ok (Reference.http_error 400 (py "Bad Request"))) = Ok PNone.
Proof. reflexivity. Qed.

Example test_upload_to_cwd_pw_paste_timeout_error :
  paste (Raise Reference.timeout_error) = Ok PNone.
Proof. reflexivity. Qed.

Example test_service_matching_logic :
  map (is_cwd_pw Reference.lower)
    [ py "cwd.pw"; py "CWD.PW"; py "Cwd.Pw"; py "telegra.ph"; py "TELEGRA.PH";
      py "invalid_service"; py ""; py "  cwd.pw  " ]
  = [true; true; true; false; false; false; false; false].
Proof. reflexivity. Qed.

Example test_line_counting :
  map line_count
    [ py "single line"; py "line 1" ++ [LF] ++ py "line 2"; py "";
      py "line" ++ [LF]; py "line" ++ [LF; LF] ]
  = [1; 2; 1; 2; 3]%Z.
Proof. reflexivity. Qed.

Example test_boundary_conditions_character_limit :
  upload_service_logic Reference.lower 4000 10 (py "telegra.ph") 4000
  = py "direct" /\
  upload_service_logic Reference.lower 4001 10 (py "telegra.ph") 4000
  = py "telegra.ph".
Proof. split; reflexivity. Qed.

Example test_boundary_conditions_line_count :
  upload_service_logic Reference.lower 1000 22 (py "telegra.ph") 4000
  = py "direct" /\
  upload_service_logic Reference.lower 1000 23 (py "telegra.ph") 4000
  = py "telegra.ph".
Proof. split; reflexivity. Qed.

(** [replace] takes out every occurrence. *)
Example replace_every_occurrence :
  replace (py "data:a-data:b") (py "data:") (py "") = py "a-b".
Proof. reflexivity. Qed.

(** A lone surrogate cannot be encoded. *)
Example encode_lone_surrogate :
  encode_utf8 [55296%N] = Raise encode_error.
Proof. reflexivity. Qed.

Example encode_two_and_three_bytes :
  encode_utf8 [233%N; 27979%N] = Ok [xc3; xa9; xe6; xb5; x8b].
Proof. reflexivity. Qed.

End TestSuite.

(** * The properties of the specification *)

Import Py Effects CwdUploader MultipartForm SendResponse.
Import PyFacts UploaderFacts DispatchFacts.

(** ** The delivery gate *)

(** C1.  With [lineCount] the number of line feeds plus one and [length]
    the number of characters, the dispatcher takes the Upload branch (its
    first call is an upload adapter, and the gate of the test suite answers
    something else than ["direct"]) exactly when [lineCount > 22] or
    [length > telegramMaxLength].  Otherwise the response is sent directly:
    the first call is the edit with the raw response and no adapter is
    called.  In particular [length = telegramMaxLength] with
    [lineCount = 22] stays direct, and [length = telegramMaxLength + 1] or
    [lineCount = 23] uploads. *)
Theorem upload_branch_iff_over_threshold (lower : str -> str)
    (c : Collaborators) (response title : str) (parse_mode : option str)
    (user_prompt debug_info raw_response : str) :
  let length := len response in
  let lineCount := line_count response in
  let over := (lineCount > 22 \/ length > TELEGRAM_MAX_LENGTH c)%Z in
  let calls := send_response lower c response title parse_mode user_prompt
                 debug_info raw_response in
  (upload_service_logic lower length lineCount (UPLOAD_SERVICE c)
     (TELEGRAM_MAX_LENGTH c) <> py "direct" <-> over) /\
  (over <-> exists a rest, calls = a :: rest /\ is_adapter_call a = true) /\
  (~ over ->
   adapter_calls calls = [] /\
   exists rest, calls = CallEdit response parse_mode :: rest) /\
  (length = TELEGRAM_MAX_LENGTH c -> lineCount = 22%Z ->
   adapter_calls calls = [] /\
   exists rest, calls = CallEdit response parse_mode :: rest) /\
  ((length = TELEGRAM_MAX_LENGTH c + 1)%Z \/ lineCount = 23%Z ->
   exists a rest, calls = a :: rest /\ is_adapter_call a = true).
Proof.
  intros length lineCount over calls.
  assert (over -> exists a rest, calls = a :: rest /\ is_adapter_call a = true)
    as Hup.
  { intros Hover. subst calls.
    rewrite send_response_upload by exact Hover. cbv zeta.
    eexists _, _. split; [reflexivity|]. apply select_adapter_is_adapter. }
  assert (~ over ->
          adapter_calls calls = [] /\
          exists rest, calls = CallEdit response parse_mode :: rest) as Hdir.
  { intros Hdirect. subst calls.
    rewrite send_response_direct by exact Hdirect.
    split; [|eexists; reflexivity].
    destruct (edit_text c 0 response parse_mode); [reflexivity|].
    destruct (edit_text c 1 response None); reflexivity. }
  split; [|split; [|split; [exact Hdir|split]]].
  - unfold upload_service_logic.
    destruct ((22 <? lineCount)%Z || (TELEGRAM_MAX_LENGTH c <? length)%Z)
      eqn:E.
    + apply gate_spec in E. split; [intros _; exact E|intros _].
      destruct (str_eqb (lower (UPLOAD_SERVICE c)) (py "cwd.pw"));
        intros H; discriminate H.
    + apply gate_false in E. split; [intros H; exfalso; apply H; reflexivity|].
      intros H; exfalso; exact (E H).
  - split; [exact Hup|].
    intros (a & rest & Hc & Ha).
    destruct (Z_gt_dec lineCount 22) as [?|Hl]; [left; assumption|].
    destruct (Z_gt_dec length (TELEGRAM_MAX_LENGTH c)) as [?|Hr];
      [right; assumption|].
    destruct Hdir as [_ [r Hr']]; [subst over; lia|].
    rewrite Hr' in Hc. inversion Hc; subst a. discriminate Ha.
  - intros H1 H2. apply Hdir. subst over. lia.
  - intros H. apply Hup. subst over. lia.
Qed.

(** C2.  On the Upload branch exactly one adapter is called: the paste
    adapter if and only if the lower-cased service name equals ["cwd.pw"],
    the wiki-publish collaborator otherwise; the gate of the test suite
    answers accordingly.  Nothing is trimmed: [" cwd.pw "] and
    ["invalid_service"] go to the wiki-publish collaborator. *)
Theorem adapter_chosen_by_lowercase_match (lower : str -> str)
    (c : Collaborators) (response title : str) (parse_mode : option str)
    (user_prompt debug_info raw_response : str) :
  (forall s, is_ascii s = true -> lower s = map ascii_lower s) ->
  (line_count response > 22 \/ len response > TELEGRAM_MAX_LENGTH c)%Z ->
  let calls := send_response lower c response title parse_mode user_prompt
                 debug_info raw_response in
  let route := upload_service_logic lower (len response) (line_count response)
                 (UPLOAD_SERVICE c) (TELEGRAM_MAX_LENGTH c) in
  (lower (UPLOAD_SERVICE c) = py "cwd.pw" <->
   adapter_calls calls =
   [CallPaste title response user_prompt debug_info raw_response]) /\
  (lower (UPLOAD_SERVICE c) <> py "cwd.pw" <->
   adapter_calls calls = [CallWiki title response]) /\
  (lower (UPLOAD_SERVICE c) = py "cwd.pw" <-> route = py "cwd.pw") /\
  (lower (UPLOAD_SERVICE c) <> py "cwd.pw" <-> route = py "telegra.ph") /\
  (UPLOAD_SERVICE c = py " cwd.pw " \/ UPLOAD_SERVICE c = py "invalid_service"
   -> adapter_calls calls = [CallWiki title response]) /\
  is_cwd_pw lower (py " cwd.pw ") = false /\
  is_cwd_pw lower (py "invalid_service") = false /\
  is_cwd_pw lower (py "Cwd.Pw") = true.
Proof.
  intros Hlower Hover calls route.
  assert (adapter_calls calls =
          if str_eqb (lower (UPLOAD_SERVICE c)) (py "cwd.pw")
          then [CallPaste title response user_prompt debug_info raw_response]
          else [CallWiki title response]) as Hcalls.
  { subst calls. rewrite adapter_calls_upload by exact Hover.
    unfold select_adapter.
    destruct (str_eqb (lower (UPLOAD_SERVICE c)) (py "cwd.pw")); reflexivity. }
  assert (route =
          if str_eqb (lower (UPLOAD_SERVICE c)) (py "cwd.pw")
          then py "cwd.pw" else py "telegra.ph") as Hroute.
  { subst route. unfold upload_service_logic.
    apply gate_spec in Hover. rewrite Hover. reflexivity. }
  assert (is_cwd_pw lower (py " cwd.pw ") = false /\
          is_cwd_pw lower (py "invalid_service") = false /\
          is_cwd_pw lower (py "Cwd.Pw") = true) as (E1 & E2 & E3).
  { unfold is_cwd_pw. rewrite !Hlower by reflexivity. repeat split. }
  rewrite Hcalls, Hroute.
  destruct (str_eqb (lower (UPLOAD_SERVICE c)) (py "cwd.pw")) eqn:E;
    [apply str_eqb_eq in E | apply str_eqb_neq in E];
    refine (conj _ (conj _ (conj _ (conj _ (conj _ (conj E1 (conj E2 E3)))))));
    try (split; intros H; solve [ reflexivity | exact E | contradiction
                                | discriminate H ]).
  intros [Hs|Hs]; rewrite Hs in E; unfold is_cwd_pw in E1, E2;
    rewrite E, str_eqb_refl in *; discriminate.
Qed.

(** A service name with spaces around it, on a response of 24 lines. *)
Lemma adapter_chosen_by_lowercase_match_witness :
  (forall s, is_ascii s = true -> Reference.lower s = map ascii_lower s) /\
  (line_count (repeat LF 23) > 22 \/ len (repeat LF 23) > 4000)%Z /\
  adapter_calls
    (send_response Reference.lower
       (Reference.failing_collaborators (py " cwd.pw ") 4000)
       (repeat LF 23) (py "Test Title") None [] [] []) =
  [CallWiki (py "Test Title") (repeat LF 23)].
Proof.
  assert (forall s, is_ascii s = true -> Reference.lower s = map ascii_lower s)
    as Hlower by (intros; reflexivity).
  assert (line_count (repeat LF 23) > 22 \/ len (repeat LF 23) > 4000)%Z
    as Hover by (left; reflexivity).
  split; [exact Hlower|]. split; [exact Hover|].
  apply (adapter_chosen_by_lowercase_match Reference.lower
           (Reference.failing_collaborators (py " cwd.pw ") 4000)
           (repeat LF 23) (py "Test Title") None [] [] [] Hlower Hover).
  left; reflexivity.
Defined.

(** C9, as the specification has it, fails on a response that took the
    Upload branch for its lines alone: 24 empty lines are 23 characters,
    and the retry sends them whole with the suffix, 66 characters. *)
Lemma line_heavy_response_grows_when_truncated :
  let c := Reference.failing_collaborators (py "cwd.pw") 4000 in
  let response := repeat LF 23 in
  let t := truncated (TELEGRAM_MAX_LENGTH c) response in
  send_response Reference.lower c response (py "Test Title") None [] [] [] =
  [ CallPaste (py "Test Title") response [] [] [];
    CallEdit response None;
    CallEdit t None ] /\
  len response = 23%Z /\ len t = 66%Z /\ ~ (len t < len response)%Z.
Proof.
  cbv zeta. split; [reflexivity|]. split; [reflexivity|].
  split; [reflexivity|]. intros H; discriminate H.
Qed.

(** C9, amended.  On the Upload branch, when the chosen adapter gives no
    URL and the plain-text edit fails with an error classified as too long,
    the dispatch makes three calls, the last being the edit with the first
    [max_length - 44] characters of the response followed by the suffix.
    That text ends with the suffix; for [max_length >= 44] it is strictly
    shorter than the response exactly when the response has at least
    [max_length] characters. *)
Theorem truncated_retry_after_too_long (lower : str -> str)
    (c : Collaborators) (response title : str) (parse_mode : option str)
    (user_prompt debug_info raw_response : str) (e : exn) :
  (line_count response > 22 \/ len response > TELEGRAM_MAX_LENGTH c)%Z ->
  snd (select_adapter lower c response title user_prompt debug_info
         raw_response) = None ->
  edit_text c 0 response None = Raise e ->
  message_too_long e = true ->
  let max_length := TELEGRAM_MAX_LENGTH c in
  let t := truncated max_length response in
  send_response lower c response title parse_mode user_prompt debug_info
    raw_response =
  [ fst (select_adapter lower c response title user_prompt debug_info
           raw_response);
    CallEdit response None;
    CallEdit t None ] /\
  t = firstn (Z.to_nat (max_length - 44)) response ++ truncation_suffix /\
  endswith t truncation_suffix = true /\
  ((44 <= max_length)%Z ->
   ((len t < len response)%Z <-> (max_length <= len response)%Z)).
Proof.
  intros Hover Hurl Hedit Hlong max_length t.
  split; [|split; [reflexivity|split]].
  - rewrite send_response_upload by exact Hover. cbv zeta.
    rewrite Hurl, Hedit, Hlong. reflexivity.
  - apply endswith_suffix.
  - intros Hm. subst t. unfold truncated, len.
    rewrite length_app, length_firstn.
    change (length truncation_suffix) with 43%nat.
    lia.
Qed.

(** A response of 200 characters against a limit of 100. *)
Lemma truncated_retry_after_too_long_witness :
  let c := Reference.failing_collaborators (py "cwd.pw") 100 in
  let response := repeat 120%N 200 in
  let e := Exn BadRequest (py "Message_too_long") in
  (line_count response > 22 \/ len response > TELEGRAM_MAX_LENGTH c)%Z /\
  snd (select_adapter Reference.lower c response (py "Test Title") [] [] [])
  = None /\
  edit_text c 0 response None = Raise e /\
  message_too_long e = true /\
  endswith (truncated 100 response) truncation_suffix = true /\
  (len (truncated 100 response) < len response)%Z.
Proof.
  cbv zeta.
  assert (line_count (repeat 120%N 200) > 22
          \/ len (repeat 120%N 200) > 100)%Z as Hover by (right; reflexivity).
  split; [exact Hover|]. split; [reflexivity|]. split; [reflexivity|].
  split; [reflexivity|].
  destruct (truncated_retry_after_too_long Reference.lower
              (Reference.failing_collaborators (py "cwd.pw") 100)
              (repeat 120%N 200) (py "Test Title") None [] [] []
              (Exn BadRequest (py "Message_too_long"))
              Hover eq_refl eq_refl eq_refl) as (_ & _ & Hend & Hlen).
  split; [exact Hend|].
  apply Hlen; vm_compute; intros H; discriminate H.
Defined.

(** ** The paste adapter *)

(** C3.  The claim fails where the service answers as the adapter expects
    it to.  [session.post] is called without [allow_redirects=False], so
    the client follows a redirect that names a location and hands the
    adapter the answer of that location: behind a client that follows
    redirects the adapter returns [None], whatever the server answers.  On
    a 302 with [Location: https://cwd.pw/p/test123] whose target is a page
    answered with 200, the adapter records a failure with the status 200
    and returns [None], where the claim has the location returned. *)
Theorem followed_redirect_gives_no_url :
  (forall (server : str -> response)
          (title content user_prompt debug_info raw_response : str),
     fst (run (CwdUploader.upload_to_cwd_pw_paste
                 (Reference.following_world server) title content
                 user_prompt debug_info raw_response)) = Ok PNone) /\
  let server := Reference.paste_server 302 (py "https://cwd.pw/p/test123") in
  let w := Reference.following_world server in
  let title := py "Test AI Response" in
  let content := py "This is a test response from the AI assistant." in
  status (server (py "https://cwd.pw/api/paste")) = 302%Z /\
  headers_get (server (py "https://cwd.pw/api/paste")) (py "Location") =
  Some (py "https://cwd.pw/p/test123") /\
  run (CwdUploader.upload_to_cwd_pw_paste w title content [] [] []) =
  (Ok PNone,
   [ EvLog INFO (py "Uploading to cwd.pw pastebin, content length: ")
       [AInt (len content)];
     EvPost (paste_request w title content [] [] []);
     EvLog ERROR (py "Failed to create cwd.pw paste: HTTP ")
       [AInt 200; AStr content] ]).
Proof.
  split.
  - intros server title content user_prompt debug_info raw_response.
    rewrite run_upload_to_cwd_pw_paste. cbv zeta.
    destruct (session_post (Reference.following_world server) _)
      as [resp|e] eqn:Hpost; [|reflexivity].
    destruct (existsb (Z.eqb (status resp)) [301; 302]%Z) eqn:Es.
    + apply redirect_status_followed in Es.
      destruct (follow_redirects_answer _ _ _ _ Hpost Es) as [-> | ->];
        reflexivity.
    + destruct (text resp); reflexivity.
  - cbv zeta. split; [reflexivity|]. split; reflexivity.
Qed.

(** A redirect whose [Location] header is present and empty, handed to
    the adapter: the adapter gives no URL for it. *)
Lemma empty_location_is_not_returned :
  let resp := Reference.redirect 301 (Some []) in
  let w := Reference.world (Ok resp) in
  let result :=
    fst (run (CwdUploader.upload_to_cwd_pw_paste w (py "Test AI Response")
                (py "This is a test response from the AI assistant.")
                [] [] [])) in
  status resp = 301%Z /\
  headers_get resp (py "Location") = Some [] /\
  result = Ok PNone /\
  result <> Ok (PStr []).
Proof.
  cbv zeta. split; [reflexivity|]. split; [reflexivity|].
  split; [reflexivity|]. intros H; discriminate H.
Qed.

(** What lines 234-246 make of the response they are handed, as the test
    suite hands it through a mocked session: the adapter returns the value
    of the [Location] header exactly when that response has the status 301
    or 302 and a [Location] header that is present and not empty.  In every
    other case (a redirect with no or an empty [Location], any other
    status, a network error) it returns [None]; it never raises, and it
    sends its one request. *)
Theorem paste_returns_nonempty_location (w : World)
    (title content user_prompt debug_info raw_response : str) :
  let req := paste_request w title content user_prompt debug_info
               raw_response in
  let result := run (CwdUploader.upload_to_cwd_pw_paste w title content user_prompt
                       debug_info raw_response) in
  (forall location,
     fst result = Ok (PStr location) <->
     exists resp,
       session_post w req = Ok resp /\
       (status resp = 301 \/ status resp = 302)%Z /\
       headers_get resp (py "Location") = Some location /\
       location <> []) /\
  (fst result = Ok PNone \/ exists location, fst result = Ok (PStr location)) /\
  posts (snd result) = [req].
Proof.
  intros req result. subst result.
  rewrite run_upload_to_cwd_pw_paste. fold req. cbv zeta.
  destruct (session_post w req) as [resp|e].
  - destruct (existsb (Z.eqb (status resp)) [301; 302]%Z) eqn:Es.
    + apply redirect_status in Es.
      destruct (headers_get resp (py "Location")) as [[|c l]|] eqn:El.
      * split; [|split; [left; reflexivity | reflexivity]].
        intros location; split; [intros H; discriminate H|].
        intros (r & Hr & _ & Hl & Hne). inversion Hr; subst r.
        rewrite El in Hl. inversion Hl; subst. congruence.
      * split; [|split; [right; eexists; reflexivity | reflexivity]].
        intros location; split.
        -- intros H; inversion H; subst. exists resp.
           repeat split; auto. discriminate.
        -- intros (r & Hr & _ & Hl & _). inversion Hr; subst r.
           rewrite El in Hl. inversion Hl; subst. reflexivity.
      * split; [|split; [left; reflexivity | reflexivity]].
        intros location; split; [intros H; discriminate H|].
        intros (r & Hr & _ & Hl & _). inversion Hr; subst r.
        rewrite El in Hl. discriminate Hl.
    + assert (~ (status resp = 301 \/ status resp = 302)%Z) as Hs.
      { rewrite <- redirect_status. congruence. }
      destruct (text resp) as [error_text|e];
        (split; [|split; [left; reflexivity | reflexivity]]);
        (intros location; split; [intros H; discriminate H|]);
        intros (r & Hr & Hst & _); inversion Hr; subst r; tauto.
  - split; [|split; [left; reflexivity | reflexivity]].
    intros location; split; [intros H; discriminate H|].
    intros (r & Hr & _); discriminate Hr.
Qed.

(** ** The image adapter *)

(** C4.  The claim fails on a data URI whose subtype holds the text
    [data:].  Line 34 deletes every [data:] of the header, not only the
    scheme in front, so the subtype [pdata:ng], which is none of [png],
    [jpg] and [webp], is read as [png]: the input passes the checks, the
    request is sent with the content type [image/png], and the URL of the
    upload is returned, where the claim has a failure before any network
    call. *)
Theorem subtype_holding_data_scheme_is_uploaded :
  let w := Reference.world (Ok Reference.success_response) in
  let d := py "data:image/pdata:ng;base64,dGVzdA==" in
  let result :=
    run (upload_base64_image_to_cwd w d (py "test_api_key_123") None None) in
  split1 comma d = [py "data:image/pdata:ng;base64"; py "dGVzdA=="] /\
  split semicolon (py "data:image/pdata:ng;base64") =
  [py "data:image/pdata:ng"; py "base64"] /\
  split slash (py "data:image/pdata:ng") = [py "data:image"; py "pdata:ng"] /\
  str_in (normalize_extension (py "pdata:ng")) supported_formats = false /\
  parse_data_uri d =
  Ok (Accepted (py "image/png") (py "png") (py "dGVzdA==")) /\
  fst result = Ok (PStr (py "https://cwd.pw/i/test123.png")) /\
  exists body, posts (snd result) = [upload_request (new_boundary w) body].
Proof.
  cbv zeta. repeat (split; [reflexivity|]).
  eexists. vm_compute. reflexivity.
Qed.

(** The rejections of lines 28-61 that hold of every input.  An input that
    does not begin with ["data:image/"] is answered with [None] and one
    error record, without a request.  So is an input whose MIME subtype,
    [jpeg] read as [jpg], is none of [png], [jpg] and [webp], when the
    subtype is taken as the adapter reads it, and when a data URI gives its
    subtype by a name free of [;], [,], [/] and [:] after ["data:image/"].
    When the payload, the text after the first comma, does not decode, the
    answer is [None] and no request is sent; when the checks before the
    decoding passed, the failed decoding is the one thing recorded. *)
Theorem rejected_before_any_request (w : World) (d k : str)
    (model prompt : option str) :
  let result := run (upload_base64_image_to_cwd w d k model prompt) in
  (startswith d (py "data:image/") = false ->
   result =
   (Ok PNone,
    [EvLog ERROR
       (py "Invalid base64 image format - missing data URI prefix") []]))
  /\
  (forall header pure_base64 first rest sub,
     split1 comma d = [header; pure_base64] ->
     split semicolon header = first :: rest ->
     replace first (py "data:") (py "") = py "image/" ++ sub ->
     str_in (normalize_extension sub) supported_formats = false ->
     fst result = Ok PNone /\ posts (snd result) = [])
  /\
  (forall sub tail,
     d = py "data:image/" ++ sub ++ tail ->
     is_subtype_name sub = true ->
     tail = [] \/
       (exists c r, tail = c :: r /\ (c = semicolon \/ c = comma)) ->
     str_in (normalize_extension sub) supported_formats = false ->
     fst result = Ok PNone /\ posts (snd result) = [])
  /\
  (forall header pure_base64 e,
     d = header ++ comma :: pure_base64 ->
     ~ In comma header ->
     b64decode w pure_base64 = Raise e ->
     fst result = Ok PNone /\ posts (snd result) = [] /\
     (forall mime_match extension p,
        parse_data_uri d = Ok (Accepted mime_match extension p) ->
        snd result =
        [EvLog ERROR (py "Failed to decode base64 data: ") [AExn e]])).
Proof.
  intros result. split; [|split; [|split]].
  - intros Hs. subst result. apply run_upload_rejected.
    unfold parse_data_uri. rewrite Hs. reflexivity.
  - intros header payload first rest sub E1 E2 Hmime Hext.
    destruct (parse_data_uri d) as [[message args|m x p]|e] eqn:Hp.
    + subst result. rewrite (run_upload_rejected _ _ _ _ _ _ _ Hp).
      split; reflexivity.
    + exfalso.
      destruct (parse_data_uri_accepted _ _ _ _ Hp)
        as (h & f & r & E1' & E2' & Hm & Hin).
      rewrite E1 in E1'. inversion E1'; subst h p.
      rewrite E2 in E2'. inversion E2'; subst f r.
      rewrite Hmime in Hm. subst m.
      apply accepted_pair_subtype in Hin. congruence.
    + subst result. rewrite (run_upload_parse_raises _ _ _ _ _ _ Hp).
      split; reflexivity.
  - intros sub tail -> Hsub Htail Hext.
    apply is_subtype_name_inv in Hsub as (Hsc & Hc & Hsl & Hco).
    destruct (split1_cases comma tail) as [[Hn _]|(a & b & -> & Hn & _)].
    + destruct (parse_data_uri_no_comma (py "data:image/" ++ sub ++ tail))
        as [e He].
      * apply startswith_prefix.
      * apply not_in_literal_app; [reflexivity|].
        apply not_in_app; assumption.
      * subst result. rewrite (run_upload_parse_raises _ _ _ _ _ _ He).
        split; reflexivity.
    + assert (a = [] \/ exists r, a = semicolon :: r) as Ha.
      { destruct a as [|x a]; [left; reflexivity|right].
        destruct Htail as [Ht|(c & r & Ht & Hcr)]; [discriminate Ht|].
        inversion Ht; subst. destruct Hcr as [->| ->]; [eauto|].
        exfalso; apply Hn; left; reflexivity. }
      subst result. rewrite app_assoc.
      rewrite (run_upload_rejected w _ k model prompt
                 (py "Unsupported image format: ")
                 [AStr (normalize_extension sub)]); [split; reflexivity|].
      rewrite parse_data_uri_shape;
        [ | apply startswith_prefix
          | apply not_in_literal_app; [reflexivity | assumption]
          | apply not_in_literal_app; [reflexivity | assumption]
          | assumption | assumption ].
      rewrite replace_data_prefix by assumption.
      rewrite check_mime_type_subtype by assumption.
      rewrite Hext. reflexivity.
  - intros header payload e -> Hn Hd.
    assert (forall m x p,
              parse_data_uri (header ++ comma :: payload)
              = Ok (Accepted m x p) ->
              result =
              (Ok PNone,
               [EvLog ERROR (py "Failed to decode base64 data: ") [AExn e]]))
      as Hacc.
    { intros m x p Hp.
      destruct (parse_data_uri_accepted _ _ _ _ Hp)
        as (h & f & r & E1 & _ & _ & _).
      rewrite split1_cut in E1 by assumption. inversion E1; subst p.
      subst result. apply (run_upload_decode_raises _ _ _ _ _ _ _ _ _ Hp Hd). }
    destruct (parse_data_uri (header ++ comma :: payload))
      as [[message args|m x p]|e'] eqn:Hp.
    + subst result. rewrite (run_upload_rejected _ _ _ _ _ _ _ Hp).
      repeat split. intros ? ? ? H; discriminate H.
    + rewrite (Hacc _ _ _ eq_refl). repeat split.
    + subst result. rewrite (run_upload_parse_raises _ _ _ _ _ _ Hp).
      repeat split. intros ? ? ? H; discriminate H.
Qed.

(** C5.  The claim holds of the exceptions (see
    [upload_base64_image_to_cwd_never_raises] and its two companions) and
    fails of the value: when the endpoint answers with an [imageUrl] that
    is a number, both image entry points hand that number to the caller,
    which is neither a string nor [None]. *)
Theorem numeric_image_url_is_returned :
  let w := Reference.world (Ok Reference.numeric_image_url) in
  fst (run (upload_base64_image_to_cwd w (py "data:image/png;base64,dGVzdA==")
              (py "test_api_key_123") None None)) = Ok (PInt 123) /\
  fst (run (upload_image_bytes_to_cwd w (pyb "test") (py "test_api_key_123")
              (py "image/png") None None)) = Ok (PInt 123) /\
  is_optional_str (PInt 123) = false.
Proof. cbv zeta. repeat split; vm_compute; reflexivity. Qed.

(** C6.  For every valid input (the data URI passes the checks, the
    payload decodes, the key and the metadata can be encoded) the adapter
    sends one request, and its body has a field [ai_generated] whose value
    is [true], whatever [model] and [prompt] are. *)
Theorem ai_generated_is_always_true (w : World) (d k : str)
    (model prompt : option str) (mime_match extension pure_base64 : str)
    (binary_data kb vb pb : bytes) :
  parse_data_uri d = Ok (Accepted mime_match extension pure_base64) ->
  b64decode w pure_base64 = Ok binary_data ->
  encode_utf8 k = Ok kb ->
  encode_utf8 (or_empty model) = Ok vb ->
  encode_utf8 (or_empty prompt) = Ok pb ->
  exists bb body,
    encode_utf8 (new_boundary w) = Ok bb /\
    posts (snd (run (upload_base64_image_to_cwd w d k model prompt))) =
    [upload_request (new_boundary w) body] /\
    has_text_field body bb (pyb "ai_generated") (pyb "true").
Proof.
  intros Hp Hd Hk Hv Hq.
  eexists _, _. split; [apply new_boundary_encoded|]. split.
  - eapply valid_upload_request; eauto.
  - apply (render_has_text_field _ [_; _] _ _ [_; _]).
Qed.

(** A PNG data URI, sent with no model and an empty prompt. *)
Lemma ai_generated_is_always_true_witness :
  let w := Reference.world (Ok Reference.success_response) in
  let d := py "data:image/png;base64,dGVzdA==" in
  let k := py "test_api_key_123" in
  parse_data_uri d = Ok (Accepted (py "image/png") (py "png") (py "dGVzdA==")) /\
  b64decode w (py "dGVzdA==") = Ok (pyb "test") /\
  encode_utf8 k = Ok (pyb "test_api_key_123") /\
  encode_utf8 (or_empty None) = Ok [] /\
  encode_utf8 (or_empty (Some [])) = Ok [] /\
  exists bb body,
    encode_utf8 (new_boundary w) = Ok bb /\
    posts (snd (run (upload_base64_image_to_cwd w d k None (Some [])))) =
    [upload_request (new_boundary w) body] /\
    has_text_field body bb (pyb "ai_generated") (pyb "true").
Proof.
  cbv zeta. repeat (split; [reflexivity|]).
  apply (ai_generated_is_always_true
           (Reference.world (Ok Reference.success_response))
           (py "data:image/png;base64,dGVzdA==") (py "test_api_key_123")
           None (Some []) (py "image/png") (py "png") (py "dGVzdA==")
           (pyb "test") (pyb "test_api_key_123") [] []);
    reflexivity.
Defined.

(** C7.  For an input whose MIME type is [image/jpeg] the derived
    extension is [jpg], and the image part of the request carries the
    file name [upload.jpg]; an extension that passes the checks is one of
    [png], [jpg] and [webp]. *)
Theorem jpeg_is_uploaded_as_jpg (w : World) (params payload k : str)
    (model prompt : option str) (binary_data kb vb pb : bytes) :
  ~ In comma params ->
  params = [] \/ (exists r, params = semicolon :: r) ->
  b64decode w payload = Ok binary_data ->
  encode_utf8 k = Ok kb ->
  encode_utf8 (or_empty model) = Ok vb ->
  encode_utf8 (or_empty prompt) = Ok pb ->
  let d := py "data:image/jpeg" ++ params ++ comma :: payload in
  parse_data_uri d = Ok (Accepted (py "image/jpeg") (py "jpg") payload) /\
  (exists rest,
     posts (snd (run (upload_base64_image_to_cwd w d k model prompt))) =
     [upload_request (new_boundary w)
        (file_part (map byte_of_N (new_boundary w)) (pyb "image")
           (pyb "upload.jpg") (pyb "image/jpeg") binary_data ++ rest)]) /\
  (forall d' mime_match extension pure_base64,
     parse_data_uri d' = Ok (Accepted mime_match extension pure_base64) ->
     In extension supported_formats).
Proof.
  intros Hn Hparams Hd Hk Hv Hq d.
  assert (parse_data_uri d = Ok (Accepted (py "image/jpeg") (py "jpg") payload))
    as Hp.
  { subst d. rewrite parse_data_uri_shape; auto.
    - vm_compute. intuition discriminate.
    - vm_compute. intuition discriminate. }
  split; [exact Hp|]. split.
  - eexists.
    rewrite (valid_upload_request w d k model prompt _ _ _ _ _ _ _
               Hp Hd Hk Hv Hq).
    unfold render. cbn [map concat wire]. rewrite <- app_assoc.
    reflexivity.
  - intros d' m e p H.
    destruct (parse_data_uri_accepted _ _ _ _ H) as (_ & _ & _ & _ & _ & _ & Hin).
    repeat (destruct Hin as [Hin|Hin];
            [inversion Hin; subst; vm_compute; auto|]).
    destruct Hin.
Qed.

(** A JPEG data URI with the usual [;base64] parameter. *)
Lemma jpeg_is_uploaded_as_jpg_witness :
  let w := Reference.world (Ok Reference.success_response) in
  ~ In comma (py ";base64") /\
  (py ";base64" = [] \/ (exists r, py ";base64" = semicolon :: r)) /\
  b64decode w (py "dGVzdA==") = Ok (pyb "test") /\
  encode_utf8 (py "test_api_key_123") = Ok (pyb "test_api_key_123") /\
  encode_utf8 (or_empty None) = Ok [] /\
  parse_data_uri (py "data:image/jpeg;base64,dGVzdA==") =
  Ok (Accepted (py "image/jpeg") (py "jpg") (py "dGVzdA==")).
Proof.
  cbv zeta.
  assert (~ In comma (py ";base64")) as Hn
    by (vm_compute; intuition discriminate).
  assert (py ";base64" = [] \/ (exists r, py ";base64" = semicolon :: r))
    as Hparams by (right; eexists; reflexivity).
  split; [exact Hn|]. split; [exact Hparams|].
  repeat (split; [reflexivity|]).
  apply (jpeg_is_uploaded_as_jpg
           (Reference.world (Ok Reference.success_response))
           (py ";base64") (py "dGVzdA==") (py "test_api_key_123") None None
           (pyb "test") (pyb "test_api_key_123") [] []
           Hn Hparams eq_refl eq_refl eq_refl eq_refl).
Defined.

(** C8.  The byte-oriented entry point behaves as the data-URI entry point
    does on ["data:" + mime_type + ";base64," + b64encode(image_bytes)]
    with the same key and metadata: started from the same trace, both give
    the same result and the same trace, the request included. *)
Theorem bytes_entry_point_delegates (w : World) (image_bytes : bytes)
    (api_key mime_type : str) (model prompt : option str) (t : trace) :
  upload_image_bytes_to_cwd w image_bytes api_key mime_type model prompt t =
  upload_base64_image_to_cwd w
    (py "data:" ++ mime_type ++ py ";base64," ++ b64encode_text w image_bytes)
    api_key model prompt t.
Proof.
  unfold upload_image_bytes_to_cwd. unfold try_except at 1. cbv zeta.
  destruct (upload_base64_image_to_cwd_never_raises w
              (py "data:" ++ mime_type ++ py ";base64,"
               ++ b64encode_text w image_bytes)
              api_key model prompt t) as (v & t' & ->).
  reflexivity.
Qed.

(** C10.  For every valid input the body of the request is the form with
    the five parts [image], [api_key], [ai_generated], [model] and
    [prompt], in that order and nothing else; a [model] or [prompt] that is
    [None] gives a part with an empty value. *)
Theorem five_fields_in_order (w : World) (d k : str)
    (model prompt : option str) (mime_match extension pure_base64 : str)
    (binary_data kb vb pb : bytes) :
  parse_data_uri d = Ok (Accepted mime_match extension pure_base64) ->
  b64decode w pure_base64 = Ok binary_data ->
  encode_utf8 k = Ok kb ->
  encode_utf8 (or_empty model) = Ok vb ->
  encode_utf8 (or_empty prompt) = Ok pb ->
  exists bb eb mb,
    encode_utf8 (new_boundary w) = Ok bb /\
    encode_utf8 extension = Ok eb /\
    encode_utf8 mime_match = Ok mb /\
    posts (snd (run (upload_base64_image_to_cwd w d k model prompt))) =
    [upload_request (new_boundary w)
       (render bb
          [ FilePart (pyb "image") (pyb "upload." ++ eb) mb binary_data;
            TextPart (pyb "api_key") kb;
            TextPart (pyb "ai_generated") (pyb "true");
            TextPart (pyb "model") vb;
            TextPart (pyb "prompt") pb ])] /\
    (model = None -> vb = []) /\
    (prompt = None -> pb = []).
Proof.
  intros Hp Hd Hk Hv Hq.
  destruct (parse_data_uri_accepted _ _ _ _ Hp) as (h & f & r & _ & _ & _ & Hin).
  destruct (accepted_pair_encoded _ _ Hin) as [Hm He].
  exists (map byte_of_N (new_boundary w)), (map byte_of_N extension),
    (map byte_of_N mime_match).
  split; [apply new_boundary_encoded|].
  split; [exact He|]. split; [exact Hm|].
  split; [eapply valid_upload_request; eauto|].
  split; intros ->; simpl in *; congruence.
Qed.

(** A PNG data URI, sent with neither model nor prompt. *)
Lemma five_fields_in_order_witness :
  let w := Reference.world (Ok Reference.success_response) in
  let d := py "data:image/png;base64,dGVzdA==" in
  let k := py "test_api_key_123" in
  parse_data_uri d = Ok (Accepted (py "image/png") (py "png") (py "dGVzdA==")) /\
  b64decode w (py "dGVzdA==") = Ok (pyb "test") /\
  encode_utf8 k = Ok (pyb "test_api_key_123") /\
  encode_utf8 (or_empty None) = Ok [] /\
  exists bb,
    posts (snd (run (upload_base64_image_to_cwd w d k None None))) =
    [upload_request (new_boundary w)
       (render bb
          [ FilePart (pyb "image") (pyb "upload.png") (pyb "image/png")
              (pyb "test");
            TextPart (pyb "api_key") (pyb "test_api_key_123");
            TextPart (pyb "ai_generated") (pyb "true");
            TextPart (pyb "model") [];
            TextPart (pyb "prompt") [] ])].
Proof.
  cbv zeta. repeat (split; [reflexivity|]).
  destruct (five_fields_in_order
              (Reference.world (Ok Reference.success_response))
              (py "data:image/png;base64,dGVzdA==") (py "test_api_key_123")
              None None (py "image/png") (py "png") (py "dGVzdA==")
              (pyb "test") (pyb "test_api_key_123") [] []
              eq_refl eq_refl eq_refl eq_refl eq_refl)
    as (bb & eb & mb & _ & He & Hm & Hposts & _).
  exists bb. inversion He; subst eb. inversion Hm; subst mb. exact Hposts.
Defined.

(** * Further properties of the code *)

(** ** Lemmas on the adapters *)

Module AdapterFacts.
Import Py Effects CwdUploader MultipartForm PyFacts UploaderFacts.
Local Open Scope io_scope.

#[local] Arguments startswith : simpl never.
#[local] Arguments split : simpl never.
#[local] Arguments split1 : simpl never.
#[local] Arguments replace : simpl never.
#[local] Arguments str_in : simpl never.
#[local] Arguments str_eqb : simpl never.
#[local] Arguments py : simpl never.

(** *** Reading the answer of the upload endpoint *)

(** What reading the answer gives, with the record it leaves. *)
Lemma read_upload_response_cases (resp : response) (t : trace) :
  let r := try_except (read_upload_response resp) upload_failed t in
  (exists result success v,
     ok resp = true /\ json resp = Ok result /\
     get result (py "success") = Ok success /\ truthy success = true /\
     get result (py "imageUrl") = Ok v /\ truthy v = true /\
     r = (Ok v,
          t ++ [EvLog INFO (py "Successfully uploaded image to cwd.pw: ")
                  [AObj v]]))
  \/
  (~ (ok resp = true /\
      exists result success v,
        json resp = Ok result /\
        get result (py "success") = Ok success /\ truthy success = true /\
        get result (py "imageUrl") = Ok v /\ truthy v = true) /\
   exists message args, r = (Ok PNone, t ++ [EvLog ERROR message args])).
Proof.
  cbv zeta.
  unfold try_except, read_upload_response, upload_failed, bind, lift, log,
    emit, ret.
  destruct (ok resp) eqn:Eok; simpl.
  - destruct (json resp) as [result|e] eqn:Ej.
    + destruct (get result (py "success")) as [success|e] eqn:Es.
      * destruct (truthy success) eqn:Ets; simpl.
        -- destruct (get result (py "imageUrl")) as [v|e] eqn:Ei.
           ++ destruct (truthy v) eqn:Etv.
              ** left. exists result, success, v. repeat split; auto.
              ** right. split; [|eauto].
                 intros (_ & r' & s' & v' & Hj & Hs & Hts & Hi & Htv).
                 inversion Hj; subst r'. rewrite Ei in Hi.
                 inversion Hi; subst v'. congruence.
           ++ right. split; [|eauto].
              intros (_ & r' & s' & v' & Hj & Hs & Hts & Hi & Htv).
              inversion Hj; subst r'. congruence.
        -- right. split; [|eauto].
           intros (_ & r' & s' & v' & Hj & Hs & Hts & Hi & Htv).
           inversion Hj; subst r'. rewrite Es in Hs.
           inversion Hs; subst s'. congruence.
      * right. split; [|eauto].
        intros (_ & r' & s' & v' & Hj & Hs & Hts & Hi & Htv).
        inversion Hj; subst r'. congruence.
    + right. split; [|eauto].
      intros (_ & r' & s' & v' & Hj & _). discriminate Hj.
  - right. split; [intros (H & _); discriminate H|].
    destruct (text resp); eauto.
Qed.

Lemma truthy_not_none (v : pyobj) : truthy v = true -> v <> PNone.
Proof. intros H ->. discriminate H. Qed.

Lemma upload_failed_run (e : exn) (t : trace) :
  upload_failed e t =
  (Ok PNone, t ++ [EvLog ERROR (py "Error uploading image to cwd.pw: ")
                     [AExn e]]).
Proof. reflexivity. Qed.

(** *** Taking a data URI apart *)

Lemma split1_prefixed (sep : codepoint) (a s : str) :
  ~ In sep a ->
  split1 sep (a ++ s) =
  match split1 sep s with
  | [h; p] => [a ++ h; p]
  | _ => [a ++ s]
  end.
Proof.
  intros Ha.
  destruct (split1_cases sep s) as [[Hn ->]|(x & y & -> & Hn & ->)].
  - apply split1_no_sep. apply not_in_app; assumption.
  - rewrite app_assoc. apply split1_cut. apply not_in_app; assumption.
Qed.

Lemma split_prefixed (sep : codepoint) (a s : str) :
  ~ In sep a ->
  exists w ws, split sep s = w :: ws /\ split sep (a ++ s) = (a ++ w) :: ws.
Proof.
  intros Ha. induction a as [|c a IH].
  - destruct (split sep s) as [|w ws] eqn:E.
    + exfalso. exact (split_nonempty _ _ E).
    + exists w, ws. split; [reflexivity | exact E].
  - destruct IH as (w & ws & E1 & E2).
    { intros H. apply Ha. right. exact H. }
    exists w, ws. split; [exact E1|].
    cbn [app]. unfold split; fold split.
    destruct (N.eqb_spec c sep) as [->|Hne].
    + exfalso. apply Ha. left. reflexivity.
    + rewrite E2. reflexivity.
Qed.

(** The first [data:] of a data URI is taken out, and so is every other
    one. *)
Lemma replace_data_image (x : str) :
  replace (py "data:image/" ++ x) (py "data:") (py "") =
  py "image/" ++ replace x (py "data:") (py "").
Proof. reflexivity. Qed.

(** Lines 28-34 on an input with the prefix: the header is what precedes
    the first comma, the MIME type what precedes its first semicolon, read
    without any [data:]. *)
Lemma parse_data_uri_prefixed (r : str) :
  parse_data_uri (py "data:image/" ++ r) =
  match split1 comma r with
  | [h; p] =>
      match split semicolon h with
      | first :: _ =>
          check_mime_type
            (py "image/" ++ replace first (py "data:") (py "")) p
      | [] => Raise (Exn IndexError (py "list index out of range"))
      end
  | _ => Raise (Exn ValueError (py "not enough values to unpack"))
  end.
Proof.
  unfold parse_data_uri. rewrite startswith_prefix. cbn [negb].
  rewrite split1_prefixed by (vm_compute; intuition discriminate).
  destruct (split1 comma r) as [|h [|p [|q l]]]; try reflexivity.
  cbn [unpack2].
  destruct (split_prefixed semicolon (py "data:image/") h)
    as (f & fs & E1 & E2); [vm_compute; intuition discriminate|].
  rewrite E1, E2. cbn [item nth_error].
  rewrite replace_data_image. reflexivity.
Qed.

(** Lines 36-54 on a MIME type of the type [image]. *)
Lemma check_mime_type_image (x p : str) :
  check_mime_type (py "image/" ++ x) p =
  match split slash x with
  | [sub] =>
      if str_in (normalize_extension sub) supported_formats
      then Ok (Accepted (py "image/" ++ x) (normalize_extension sub) p)
      else Ok (Rejected (py "Unsupported image format: ")
                 [AStr (normalize_extension sub)])
  | _ => Ok (Rejected (py "Invalid MIME type format: ")
               [AStr (py "image/" ++ x)])
  end.
Proof.
  unfold check_mime_type. rewrite startswith_prefix. cbn [negb].
  assert (split slash (py "image/" ++ x) = py "image" :: split slash x) as ->.
  { change (py "image/" ++ x) with (py "image" ++ slash :: x).
    apply split_cut. vm_compute. intuition discriminate. }
  destruct (split slash x) as [|sub [|y l]] eqn:E.
  - exfalso. exact (split_nonempty _ _ E).
  - cbn [length Nat.eqb negb item nth_error].
    destruct (str_in (normalize_extension sub) supported_formats);
      reflexivity.
  - reflexivity.
Qed.

(** The check of line 36 cannot fail once the check of line 28 has
    passed. *)
Lemma parse_data_uri_mime_checked (d : str) (args : list log_arg) :
  parse_data_uri d <> Ok (Rejected (py "Unsupported MIME type: ") args).
Proof.
  destruct (startswith d (py "data:image/")) eqn:Es.
  - destruct (startswith_inv _ _ Es) as [r ->].
    rewrite parse_data_uri_prefixed.
    destruct (split1 comma r) as [|h [|p [|q l]]];
      try (intros H; discriminate H).
    destruct (split semicolon h) as [|f fs]; [intros H; discriminate H|].
    rewrite check_mime_type_image.
    destruct (split slash _) as [|sub [|y l]];
      try (intros H; apply (f_equal (fun o => match o with
             | Ok (Rejected m _) => nth 12 m 0%N | _ => 0%N end)) in H;
           vm_compute in H; discriminate H).
    destruct (str_in _ _); intros H; [discriminate H|].
    apply (f_equal (fun o => match o with
             | Ok (Rejected m _) => nth 12 m 0%N | _ => 0%N end)) in H.
    vm_compute in H. discriminate H.
  - unfold parse_data_uri. rewrite Es. cbn [negb]. intros H.
    apply (f_equal (fun o => match o with
             | Ok (Rejected m _) => nth 12 m 0%N | _ => 0%N end)) in H.
    vm_compute in H. discriminate H.
Qed.

(** *** Encoding *)

(** The codec has one way to fail. *)
Lemma encode_utf8_raises (s : str) (e : exn) :
  encode_utf8 s = Raise e -> e = encode_error.
Proof.
  induction s as [|c s IH]; simpl; [intros H; discriminate H|].
  destruct (utf8_char c) as [b|e'] eqn:Ec.
  - destruct (encode_utf8 s) as [bs|e''].
    + intros H; discriminate H.
    + intros H; inversion H; subst. apply IH. reflexivity.
  - intros H; inversion H; subst. clear H. unfold utf8_char in Ec.
    repeat match type of Ec with
    | (if ?b then _ else _) = _ => destruct b
    end; congruence.
Qed.

Lemma encode_utf8_cases (s : str) :
  (exists b, encode_utf8 s = Ok b) \/ encode_utf8 s = Raise encode_error.
Proof.
  destruct (encode_utf8 s) as [b|e] eqn:E; [left; eauto|right].
  rewrite (encode_utf8_raises _ _ E). reflexivity.
Qed.

Lemma encode_utf8_app_raises (a b : str) :
  encode_utf8 a = Raise encode_error \/ encode_utf8 b = Raise encode_error ->
  encode_utf8 (a ++ b) = Raise encode_error.
Proof.
  intros H. rewrite encode_utf8_app.
  destruct (encode_utf8_cases a) as [[x Ea]|Ea]; rewrite Ea; [|reflexivity].
  destruct H as [H|H]; [congruence|]. rewrite H. reflexivity.
Qed.

Lemma encode_utf8_app_inv (a b : str) (x : bytes) :
  encode_utf8 (a ++ b) = Ok x ->
  exists y z, encode_utf8 a = Ok y /\ encode_utf8 b = Ok z /\ x = y ++ z.
Proof.
  rewrite encode_utf8_app.
  destruct (encode_utf8 a) as [y|e]; [|intros H; discriminate H].
  destruct (encode_utf8 b) as [z|e]; [|intros H; discriminate H].
  intros H; inversion H; subst. eauto.
Qed.

Lemma encode_utf8_suffix (a b : str) (x : bytes) :
  encode_utf8 (a ++ b) = Ok x -> exists z, encode_utf8 b = Ok z.
Proof.
  intros H. apply encode_utf8_app_inv in H as (y & z & _ & E & _). eauto.
Qed.

(** The form is built exactly when the key and the metadata can be
    encoded. *)
Lemma multipart_body_built (boundary extension mime_match : str)
    (binary_data : bytes) (api_key : str) (model prompt : option str)
    (body : bytes) :
  multipart_body boundary extension mime_match binary_data api_key model
    prompt = Ok body ->
  exists kb vb pb,
    encode_utf8 api_key = Ok kb /\
    encode_utf8 (or_empty model) = Ok vb /\
    encode_utf8 (or_empty prompt) = Ok pb.
Proof.
  unfold multipart_body.
  repeat match goal with
  | |- context [match encode_utf8 ?s with _ => _ end] =>
      let E := fresh "E" in
      destruct (encode_utf8 s) eqn:E; [|intros H; discriminate H]
  end.
  intros _.
  repeat match goal with
  | H : encode_utf8 (_ ++ _ ++ _) = Ok _ |- _ =>
      apply encode_utf8_suffix in H; destruct H as [? H]
  end.
  repeat match goal with
  | H : encode_utf8 (CRLF ++ _) = Ok _ |- _ =>
      apply encode_utf8_suffix in H; destruct H as [? H]
  end.
  do 3 eexists. repeat split; eassumption.
Qed.

Lemma multipart_body_raises (boundary extension mime_match : str)
    (binary_data : bytes) (api_key : str) (model prompt : option str) :
  encode_utf8 api_key = Raise encode_error \/
  encode_utf8 (or_empty model) = Raise encode_error \/
  encode_utf8 (or_empty prompt) = Raise encode_error ->
  multipart_body boundary extension mime_match binary_data api_key model
    prompt = Raise encode_error.
Proof.
  intros H.
  destruct (multipart_body boundary extension mime_match binary_data api_key
              model prompt) as [body|e] eqn:E.
  - apply multipart_body_built in E as (kb & vb & pb & E1 & E2 & E3).
    rewrite E1, E2, E3 in H.
    destruct H as [H|[H|H]]; discriminate H.
  - f_equal. revert E. unfold multipart_body.
    repeat match goal with
    | |- context [match encode_utf8 ?s with _ => _ end] =>
        let E := fresh "E" in
        destruct (encode_utf8 s) eqn:E;
        [|intros H'; inversion H'; subst;
          eapply encode_utf8_raises; eassumption]
    end.
    intros H'; discriminate H'.
Qed.

(** *** The records of a call *)

(** The messages of lines 29, 43 and 53. *)
Lemma parse_data_uri_rejected (d message : str) (args : list log_arg) :
  parse_data_uri d = Ok (Rejected message args) ->
  In message
    [ py "Invalid base64 image format - missing data URI prefix";
      py "Invalid MIME type format: ";
      py "Unsupported image format: " ].
Proof.
  destruct (startswith d (py "data:image/")) eqn:Es.
  - destruct (startswith_inv _ _ Es) as [r ->].
    rewrite parse_data_uri_prefixed.
    destruct (split1 comma r) as [|h [|p [|q l]]];
      try (intros H; discriminate H).
    destruct (split semicolon h) as [|f fs]; [intros H; discriminate H|].
    rewrite check_mime_type_image.
    destruct (split slash _) as [|sub [|y l]];
      try (intros H; inversion H; subst; right; left; reflexivity).
    destruct (str_in _ _); intros H; inversion H; subst.
    right; right; left; reflexivity.
  - unfold parse_data_uri. rewrite Es. cbn [negb].
    intros H; inversion H; subst. left; reflexivity.
Qed.

(** The messages of lines 145-163. *)
Lemma read_upload_response_record (resp : response) (t : trace) :
  exists v lvl message args,
    try_except (read_upload_response resp) upload_failed t =
    (Ok v, t ++ [EvLog lvl message args]) /\
    In message
      [ py "Upload failed with status ";
        py "Upload error: ";
        py "Successfully uploaded image to cwd.pw: ";
        py "Upload response missing imageUrl";
        py "Error uploading image to cwd.pw: " ].
Proof.
  unfold try_except, read_upload_response, upload_failed, bind, lift, log,
    emit, ret.
  destruct (ok resp); cbn [negb].
  - destruct (json resp) as [result|e];
      [|do 4 eexists; split; [reflexivity|cbn [In]; tauto]].
    destruct (get result (py "success")) as [success|e];
      [|do 4 eexists; split; [reflexivity|cbn [In]; tauto]].
    destruct (truthy success); cbn [negb];
      [|do 4 eexists; split; [reflexivity|cbn [In]; tauto]].
    destruct (get result (py "imageUrl")) as [image_url|e];
      [|do 4 eexists; split; [reflexivity|cbn [In]; tauto]].
    destruct (truthy image_url);
      do 4 eexists; (split; [reflexivity|cbn [In]; tauto]).
  - destruct (text resp) as [error_text|e];
      do 4 eexists; (split; [reflexivity|cbn [In]; tauto]).
Qed.

(** *** Prefixes *)

(** A prefix free of a character is found in what precedes that
    character. *)
Lemma startswith_before (c : codepoint) (p m r : str) :
  ~ In c p -> startswith (m ++ c :: r) p = true -> startswith m p = true.
Proof.
  revert m. induction p as [|x p IH]; intros m Hc; [reflexivity|].
  destruct m as [|y m]; cbn [app]; unfold startswith; fold startswith.
  - intros H. apply andb_prop in H as [H _]. apply N.eqb_eq in H.
    exfalso. apply Hc. left. symmetry. exact H.
  - intros H. apply andb_prop in H as [H1 H2]. rewrite H1. cbn [andb].
    apply IH; [|exact H2]. intros Hin. apply Hc. right. exact Hin.
Qed.

Lemma str_in_In (x : str) (l : list str) : In x l -> str_in x l = true.
Proof.
  intros H. unfold str_in. apply existsb_exists.
  exists x. split; [exact H | apply str_eqb_refl].
Qed.

(** The subtypes that pass line 52, [jpeg] read as [jpg]. *)
Lemma supported_subtype (sub : str) :
  str_in (normalize_extension sub) supported_formats = true <->
  In sub [py "png"; py "jpeg"; py "jpg"; py "webp"].
Proof.
  unfold normalize_extension.
  destruct (str_eqb sub (py "jpeg")) eqn:E.
  - apply str_eqb_eq in E; subst sub.
    split; [intros _; right; left; reflexivity | intros _; reflexivity].
  - apply str_eqb_neq in E. split.
    + intros H. apply str_in_inv in H.
      destruct H as [<-|[<-|[<-|[]]]]; cbn [In]; tauto.
    + intros [<-|[<-|[<-|[<-|[]]]]]; try reflexivity.
      exfalso; apply E; reflexivity.
Qed.

Lemma normalize_extension_other (sub : str) :
  sub <> py "jpeg" -> normalize_extension sub = sub.
Proof.
  intros H. unfold normalize_extension.
  apply str_eqb_neq in H. rewrite H. reflexivity.
Qed.

(** *** Counting *)

Lemma count_app (c : codepoint) (s t : str) :
  count c (s ++ t) = (count c s + count c t)%Z.
Proof.
  induction s as [|x s IH]; cbn [app count]; [reflexivity|].
  rewrite IH. lia.
Qed.

Lemma count_le_len (c : codepoint) (s : str) : (count c s <= len s)%Z.
Proof.
  unfold len. induction s as [|x s IH]; cbn [count length]; [lia|].
  destruct (x =? c)%N; lia.
Qed.

Lemma split_length (sep : codepoint) (s : str) :
  len (split sep s) = (count sep s + 1)%Z.
Proof.
  unfold len. induction s as [|x s IH]; [reflexivity|].
  unfold split; fold split. cbn [count].
  destruct (x =? sep)%N.
  - cbn [length]. lia.
  - destruct (split sep s) as [|y l] eqn:E.
    + exfalso. exact (split_nonempty _ _ E).
    + cbn [length] in *. lia.
Qed.

(** *** The boundary *)

Lemma hexdigit_range (d : N) :
  (d < 16)%N ->
  (48 <= hexdigit d <= 57 \/ 97 <= hexdigit d <= 102)%N.
Proof.
  intros H. unfold hexdigit.
  destruct (N.ltb_spec d 10); lia.
Qed.

Lemma hexlify_chars (b : bytes) (c : codepoint) :
  In c (hexlify b) -> (48 <= c <= 57 \/ 97 <= c <= 102)%N.
Proof.
  unfold hexlify. rewrite in_flat_map. intros (x & _ & Hc).
  pose proof (Byte.to_N_bounded x) as Hx.
  destruct Hc as [<-|[<-|[]]]; apply hexdigit_range.
  - apply N.Div0.div_lt_upper_bound; lia.
  - apply N.mod_upper_bound; discriminate.
Qed.

Lemma hexlify_length (b : bytes) : length (hexlify b) = (2 * length b)%nat.
Proof.
  unfold hexlify. induction b as [|x b IH]; [reflexivity|].
  cbn [flat_map app length]. rewrite IH. lia.
Qed.

(** *** Lower case *)

Lemma ascii_lower_letter (c x : codepoint) :
  (97 <= x <= 122)%N ->
  ascii_lower c = x <-> (c = x \/ c + 32 = x)%N.
Proof.
  intros Hx. unfold ascii_lower.
  destruct (N.leb_spec 65 c); destruct (N.leb_spec c 90); cbn [andb]; lia.
Qed.

Lemma ascii_lower_other (c x : codepoint) :
  (x < 65 \/ 90 < x < 97)%N -> ascii_lower c = x -> c = x.
Proof.
  intros Hx. unfold ascii_lower.
  destruct (N.leb_spec 65 c); destruct (N.leb_spec c 90); cbn [andb]; lia.
Qed.

End AdapterFacts.

(** ** The image adapter, call by call *)

Import AdapterFacts.

(** X1.  Every call of the image adapter returns a value and leaves
    exactly one log record, preceded by at most one request, the upload
    request of the call.  The record is at level [INFO] exactly when the
    value returned is not [None]; such a value is truthy and is only
    returned after the request was sent. *)
Theorem image_upload_leaves_one_record (w : World) (d k : str)
    (model prompt : option str) :
  exists v sent lvl message args,
    run (upload_base64_image_to_cwd w d k model prompt) =
    (Ok v, sent ++ [EvLog lvl message args]) /\
    (sent = [] \/
     exists body, sent = [EvPost (upload_request (new_boundary w) body)]) /\
    (lvl = INFO <-> v <> PNone) /\
    (v <> PNone -> sent <> [] /\ truthy v = true).
Proof.
  assert (forall sent message args,
            (sent = [] \/
             exists body,
               sent = [EvPost (upload_request (new_boundary w) body)]) ->
            exists v sent' lvl message' args',
              (Ok PNone, sent ++ [EvLog ERROR message args]) =
              (Ok v, sent' ++ [EvLog lvl message' args']) /\
              (sent' = [] \/
               exists body,
                 sent' = [EvPost (upload_request (new_boundary w) body)]) /\
              (lvl = INFO <-> v <> PNone) /\
              (v <> PNone -> sent' <> [] /\ truthy v = true)) as Hfail.
  { intros sent message args Hsent.
    exists PNone, sent, ERROR, message, args.
    split; [reflexivity|]. split; [exact Hsent|].
    split; [split; [intros H; discriminate H | intros H; contradiction]|].
    intros H; contradiction. }
  rewrite run_upload_base64.
  destruct (parse_data_uri d) as [[message args|m x p]|e].
  - apply (Hfail []). left; reflexivity.
  - destruct (b64decode w p) as [bin|e].
    + destruct (multipart_body (new_boundary w) x m bin k model prompt)
        as [body|e].
      * cbv zeta.
        destruct (session_post w (upload_request (new_boundary w) body))
          as [resp|e].
        -- destruct (read_upload_response_cases resp
                       [EvPost (upload_request (new_boundary w) body)])
             as [(result & success & v & _ & _ & _ & _ & _ & Hv & ->)
                |(_ & message & args & ->)].
           ++ exists v, [EvPost (upload_request (new_boundary w) body)],
                INFO, (py "Successfully uploaded image to cwd.pw: "),
                [AObj v].
              split; [reflexivity|]. split; [right; eauto|].
              split; [split; [intros _; apply truthy_not_none; exact Hv
                             | reflexivity]|].
              intros _. split; [intros H; discriminate H | exact Hv].
           ++ apply Hfail. right; eauto.
        -- rewrite upload_failed_run. apply Hfail. right; eauto.
      * rewrite upload_failed_run. apply (Hfail []). left; reflexivity.
    + apply (Hfail []). left; reflexivity.
  - rewrite upload_failed_run. apply (Hfail []). left; reflexivity.
Qed.

(** X2.  The image adapter returns a value [v] other than [None] exactly
    when every stage succeeded: the data URI passed the checks, the
    payload decoded, the form was built, the request was answered with a
    response whose [ok] holds and whose JSON body is an object with a
    truthy [success] and a truthy [imageUrl], and [v] is that
    [imageUrl]. *)
Theorem image_url_returned_iff (w : World) (d k : str)
    (model prompt : option str) (v : pyobj) :
  (fst (run (upload_base64_image_to_cwd w d k model prompt)) = Ok v /\
   v <> PNone) <->
  exists m x p bin body resp result success,
    parse_data_uri d = Ok (Accepted m x p) /\
    b64decode w p = Ok bin /\
    multipart_body (new_boundary w) x m bin k model prompt = Ok body /\
    session_post w (upload_request (new_boundary w) body) = Ok resp /\
    ok resp = true /\
    json resp = Ok result /\
    get result (py "success") = Ok success /\ truthy success = true /\
    get result (py "imageUrl") = Ok v /\ truthy v = true.
Proof.
  rewrite run_upload_base64. split.
  - intros [Hv Hne].
    assert (forall t, fst (Ok PNone, t : trace) = Ok v -> False) as Hnone.
    { intros t H. inversion H. congruence. }
    destruct (parse_data_uri d) as [[message args|m x p]|e] eqn:Hp;
      [exfalso; exact (Hnone _ Hv)| |exfalso; exact (Hnone _ Hv)].
    destruct (b64decode w p) as [bin|e] eqn:Hd;
      [|exfalso; exact (Hnone _ Hv)].
    destruct (multipart_body (new_boundary w) x m bin k model prompt)
      as [body|e] eqn:Hb; [|exfalso; exact (Hnone _ Hv)].
    cbv zeta in Hv.
    destruct (session_post w (upload_request (new_boundary w) body))
      as [resp|e] eqn:Hpost; [|exfalso; exact (Hnone _ Hv)].
    destruct (read_upload_response_cases resp
                [EvPost (upload_request (new_boundary w) body)])
      as [(result & success & v' & Hok & Hj & Hs & Hts & Hi & Htv & E)
         |(_ & message & args & E)];
      rewrite E in Hv; [|exfalso; exact (Hnone _ Hv)].
    inversion Hv; subst v'.
    exists m, x, p, bin, body, resp, result, success. repeat split; auto.
  - intros (m & x & p & bin & body & resp & result & success
            & -> & -> & -> & Hpost & Hok & Hj & Hs & Hts & Hi & Htv).
    cbv zeta. rewrite Hpost.
    destruct (read_upload_response_cases resp
                [EvPost (upload_request (new_boundary w) body)])
      as [(result' & success' & v' & _ & Hj' & Hs' & _ & Hi' & _ & ->)
         |(Hno & _)].
    + rewrite Hj in Hj'. inversion Hj'; subst result'.
      rewrite Hi in Hi'. inversion Hi'; subst v'.
      split; [reflexivity | apply truthy_not_none; exact Htv].
    + exfalso. apply Hno. split; [exact Hok|].
      exists result, success, v. auto.
Qed.

(** X3.  A request is sent exactly when the data URI passes the checks,
    the payload decodes, and the key, the model and the prompt can be
    encoded as UTF-8; and no call sends more than the one upload
    request. *)
Theorem request_sent_iff_valid (w : World) (d k : str)
    (model prompt : option str) :
  let sent :=
    posts (snd (run (upload_base64_image_to_cwd w d k model prompt))) in
  (sent <> [] <->
   exists m x p bin kb vb pb,
     parse_data_uri d = Ok (Accepted m x p) /\
     b64decode w p = Ok bin /\
     encode_utf8 k = Ok kb /\
     encode_utf8 (or_empty model) = Ok vb /\
     encode_utf8 (or_empty prompt) = Ok pb) /\
  (sent = [] \/ exists body, sent = [upload_request (new_boundary w) body]).
Proof.
  cbv zeta.
  destruct (parse_data_uri d) as [[message args|m x p]|e] eqn:Hp.
  - rewrite (run_upload_rejected _ _ _ _ _ _ _ Hp).
    split; [|left; reflexivity].
    split; [intros H; exfalso; apply H; reflexivity|].
    intros (? & ? & ? & ? & ? & ? & ? & H & _); discriminate H.
  - destruct (b64decode w p) as [bin|e] eqn:Hd.
    + destruct (multipart_body (new_boundary w) x m bin k model prompt)
        as [body|e] eqn:Hb.
      * rewrite (upload_posts_accepted _ _ _ _ _ _ _ _ _ _ Hp Hd Hb).
        split; [|right; eauto].
        split; [intros _|intros _ H; discriminate H].
        destruct (multipart_body_built _ _ _ _ _ _ _ _ Hb)
          as (kb & vb & pb & Hk & Hv & Hq).
        exists m, x, p, bin, kb, vb, pb. auto.
      * rewrite run_upload_base64, Hp, Hd, Hb.
        split; [|left; reflexivity].
        split; [intros H; exfalso; apply H; reflexivity|].
        intros (m' & x' & p' & bin' & kb & vb & pb & H1 & H2 & Hk & Hv & Hq).
        inversion H1; subst m' x' p'. rewrite Hd in H2.
        inversion H2; subst bin'. exfalso.
        destruct (parse_data_uri_accepted _ _ _ _ Hp)
          as (_ & _ & _ & _ & _ & _ & Hin).
        destruct (accepted_pair_encoded _ _ Hin) as [Hm He].
        rewrite (multipart_body_wire _ _ _ _ _ _ _ _ _ _ _ _ _
                   (new_boundary_encoded w) He Hm Hk Hv Hq) in Hb.
        discriminate Hb.
    + rewrite (run_upload_decode_raises _ _ _ _ _ _ _ _ _ Hp Hd).
      split; [|left; reflexivity].
      split; [intros H; exfalso; apply H; reflexivity|].
      intros (m' & x' & p' & bin' & kb & vb & pb & H1 & H2 & _).
      inversion H1; subst m' x' p'. rewrite Hd in H2. discriminate H2.
  - rewrite (run_upload_parse_raises _ _ _ _ _ _ Hp).
    split; [|left; reflexivity].
    split; [intros H; exfalso; apply H; reflexivity|].
    intros (? & ? & ? & ? & ? & ? & ? & H & _); discriminate H.
Qed.

(** X4.  When the data URI passes the checks and the payload decodes but
    the key, the model or the prompt holds a character that UTF-8 cannot
    encode (a lone surrogate), the failure of [encode] is caught by the
    outer handler: the adapter returns [None], leaves the one record of
    that handler with a [UnicodeEncodeError], and sends nothing. *)
Theorem unencodable_text_is_caught (w : World) (d k : str)
    (model prompt : option str) (m x p : str) (bin : bytes) :
  parse_data_uri d = Ok (Accepted m x p) ->
  b64decode w p = Ok bin ->
  (exists e, encode_utf8 k = Raise e) \/
  (exists e, encode_utf8 (or_empty model) = Raise e) \/
  (exists e, encode_utf8 (or_empty prompt) = Raise e) ->
  exists e,
    exn_class e = UnicodeEncodeError /\
    run (upload_base64_image_to_cwd w d k model prompt) =
    (Ok PNone,
     [EvLog ERROR (py "Error uploading image to cwd.pw: ") [AExn e]]).
Proof.
  intros Hp Hd He. exists encode_error. split; [reflexivity|].
  rewrite run_upload_base64, Hp, Hd.
  rewrite multipart_body_raises; [reflexivity|].
  destruct He as [[e He]|[[e He]|[e He]]];
    rewrite (encode_utf8_raises _ _ He) in He; auto.
Qed.

(** A key that holds a lone surrogate. *)
Lemma unencodable_text_is_caught_witness :
  let w := Reference.world (Ok Reference.success_response) in
  let d := py "data:image/png;base64,dGVzdA==" in
  parse_data_uri d =
  Ok (Accepted (py "image/png") (py "png") (py "dGVzdA==")) /\
  b64decode w (py "dGVzdA==") = Ok (pyb "test") /\
  encode_utf8 [55296%N] = Raise encode_error /\
  exists e,
    exn_class e = UnicodeEncodeError /\
    run (upload_base64_image_to_cwd w d [55296%N] None None) =
    (Ok PNone,
     [EvLog ERROR (py "Error uploading image to cwd.pw: ") [AExn e]]).
Proof.
  cbv zeta. repeat (split; [reflexivity|]).
  apply (unencodable_text_is_caught
           (Reference.world (Ok Reference.success_response))
           (py "data:image/png;base64,dGVzdA==") [55296%N] None None
           (py "image/png") (py "png") (py "dGVzdA==") (pyb "test")
           eq_refl eq_refl).
  left. exists encode_error. reflexivity.
Defined.

(** X5.  An input that begins with ["data:image/"] and has no comma is
    not answered by one of the validation messages: the unpacking of line
    33 raises a [ValueError], the outer handler catches it, and the
    adapter returns [None] with the record of that handler, without a
    request. *)
Theorem missing_comma_is_caught (w : World) (d k : str)
    (model prompt : option str) :
  startswith d (py "data:image/") = true ->
  ~ In comma d ->
  exists e,
    exn_class e = ValueError /\
    run (upload_base64_image_to_cwd w d k model prompt) =
    (Ok PNone,
     [EvLog ERROR (py "Error uploading image to cwd.pw: ") [AExn e]]).
Proof.
  intros Hs Hc. destruct (startswith_inv _ _ Hs) as [r ->].
  exists (Exn ValueError (py "not enough values to unpack")).
  split; [reflexivity|].
  apply run_upload_parse_raises.
  rewrite parse_data_uri_prefixed, split1_no_sep; [reflexivity|].
  intros H. apply Hc. apply in_or_app. right. exact H.
Qed.

(** A data URI cut before its comma. *)
Lemma missing_comma_is_caught_witness :
  let w := Reference.world (Ok Reference.success_response) in
  let d := py "data:image/png;base64" in
  startswith d (py "data:image/") = true /\
  ~ In comma d /\
  exists e,
    exn_class e = ValueError /\
    run (upload_base64_image_to_cwd w d (py "test_api_key_123") None None) =
    (Ok PNone,
     [EvLog ERROR (py "Error uploading image to cwd.pw: ") [AExn e]]).
Proof.
  cbv zeta.
  assert (~ In comma (py "data:image/png;base64")) as Hc
    by (vm_compute; intuition discriminate).
  split; [reflexivity|]. split; [exact Hc|].
  apply (missing_comma_is_caught
           (Reference.world (Ok Reference.success_response))
           (py "data:image/png;base64") (py "test_api_key_123") None None
           eq_refl Hc).
Defined.

(** X6.  The record of line 37, ["Unsupported MIME type: ..."], is never
    left by the image adapter: an input that passed the prefix check of
    line 28 always gives a MIME type that begins with ["image/"], so the
    check of line 36 cannot fail. *)
Theorem mime_type_record_is_never_left (w : World) (d k : str)
    (model prompt : option str) (lvl : level) (args : list log_arg) :
  ~ In (EvLog lvl (py "Unsupported MIME type: ") args)
      (snd (run (upload_base64_image_to_cwd w d k model prompt))).
Proof.
  assert (forall message,
            In message
              [ py "Invalid base64 image format - missing data URI prefix";
                py "Invalid MIME type format: ";
                py "Unsupported image format: ";
                py "Failed to decode base64 data: ";
                py "Upload failed with status ";
                py "Upload error: ";
                py "Successfully uploaded image to cwd.pw: ";
                py "Upload response missing imageUrl";
                py "Error uploading image to cwd.pw: " ] ->
            py "Unsupported MIME type: " <> message) as Hother.
  { intros message Hin E. subst message.
    repeat (destruct Hin as [Hin|Hin];
            [apply (f_equal (fun s => (nth 0 s 0%N, nth 12 s 0%N))) in Hin;
             vm_compute in Hin; discriminate Hin|]).
    destruct Hin. }
  assert (forall sent lvl' message args',
            In message
              [ py "Invalid base64 image format - missing data URI prefix";
                py "Invalid MIME type format: ";
                py "Unsupported image format: ";
                py "Failed to decode base64 data: ";
                py "Upload failed with status ";
                py "Upload error: ";
                py "Successfully uploaded image to cwd.pw: ";
                py "Upload response missing imageUrl";
                py "Error uploading image to cwd.pw: " ] ->
            (sent = [] \/ exists req, sent = [EvPost req]) ->
            ~ In (EvLog lvl (py "Unsupported MIME type: ") args)
                (sent ++ [EvLog lvl' message args'])) as Hrec.
  { intros sent lvl' message args' Hin Hsent H.
    apply in_app_or in H as [H|H].
    - destruct Hsent as [->|[req ->]]; [destruct H|].
      destruct H as [H|[]]. discriminate H.
    - destruct H as [H|[]]. inversion H; subst.
      exact (Hother _ Hin eq_refl). }
  rewrite run_upload_base64.
  destruct (parse_data_uri d) as [[message args'|m x p]|e] eqn:Hp;
    cbn [snd].
  - apply parse_data_uri_rejected in Hp.
    apply (Hrec []); [|left; reflexivity].
    cbn [In] in *. tauto.
  - destruct (b64decode w p) as [bin|e].
    + destruct (multipart_body (new_boundary w) x m bin k model prompt)
        as [body|e].
      * cbv zeta.
        destruct (session_post w (upload_request (new_boundary w) body))
          as [resp|e].
        -- destruct (read_upload_response_record resp
                       [EvPost (upload_request (new_boundary w) body)])
             as (v & lvl' & message & args' & -> & Hin).
           cbn [snd]. apply Hrec; [|right; eauto].
           cbn [In] in *. tauto.
        -- rewrite upload_failed_run. cbn [snd].
           apply Hrec; [|right; eauto]. cbn [In]. tauto.
      * rewrite upload_failed_run. cbn [snd].
        apply (Hrec []); [|left; reflexivity]. cbn [In]. tauto.
    + cbn [snd]. apply (Hrec []); [|left; reflexivity]. cbn [In]. tauto.
  - rewrite upload_failed_run. cbn [snd].
    apply (Hrec []); [|left; reflexivity]. cbn [In]. tauto.
Qed.

(** ** The header of the data URI *)

(** X7.  The adapter reads the header only up to its first semicolon:
    what stands between the MIME type and the comma (the [;base64] marker
    or any other parameter, or nothing at all) has no influence on the
    run.  The marker is neither required nor checked; the payload is
    decoded as base64 in every case. *)
Theorem header_parameters_are_ignored (w : World)
    (first params params' payload k : str) (model prompt : option str)
    (t : trace) :
  startswith first (py "data:image/") = true ->
  ~ In comma first -> ~ In semicolon first ->
  ~ In comma params ->
  params = [] \/ (exists r, params = semicolon :: r) ->
  ~ In comma params' ->
  params' = [] \/ (exists r, params' = semicolon :: r) ->
  upload_base64_image_to_cwd w (first ++ params ++ comma :: payload) k model
    prompt t =
  upload_base64_image_to_cwd w (first ++ params' ++ comma :: payload) k model
    prompt t.
Proof.
  intros Hs Hc Hsc Hp Hps Hp' Hps'.
  unfold upload_base64_image_to_cwd.
  rewrite !parse_data_uri_shape by assumption. reflexivity.
Qed.

(** A PNG data URI with and without its [;base64] marker. *)
Lemma header_parameters_are_ignored_witness :
  let w := Reference.world (Ok Reference.success_response) in
  startswith (py "data:image/png") (py "data:image/") = true /\
  ~ In comma (py "data:image/png") /\
  ~ In semicolon (py "data:image/png") /\
  ~ In comma (py ";base64") /\
  run (upload_base64_image_to_cwd w (py "data:image/png;base64,dGVzdA==")
         (py "test_api_key_123") None None) =
  run (upload_base64_image_to_cwd w (py "data:image/png,dGVzdA==")
         (py "test_api_key_123") None None).
Proof.
  cbv zeta.
  assert (~ In comma (py "data:image/png")) as Hc
    by (vm_compute; intuition discriminate).
  assert (~ In semicolon (py "data:image/png")) as Hsc
    by (vm_compute; intuition discriminate).
  assert (~ In comma (py ";base64")) as Hp
    by (vm_compute; intuition discriminate).
  assert (~ In comma []) as Hp' by (intros H; exact H).
  split; [reflexivity|]. split; [exact Hc|]. split; [exact Hsc|].
  split; [exact Hp|].
  apply (header_parameters_are_ignored
           (Reference.world (Ok Reference.success_response))
           (py "data:image/png") (py ";base64") [] (py "dGVzdA==")
           (py "test_api_key_123") None None [] eq_refl Hc Hsc Hp
           (or_intror (ex_intro _ (py "base64") eq_refl)) Hp'
           (or_introl eq_refl)).
Defined.



(** X9.  For a data URI that names its subtype after ["data:image/"], the
    subtype alone decides: [png], [jpeg], [jpg] and [webp], written in
    lower case, are accepted, with the MIME type as written and the
    extension derived from the subtype; every other subtype, the empty one
    and one in capitals included, is refused with the record
    ["Unsupported image format: "] that names the subtype as it was
    written. *)
Theorem subtype_decides_acceptance (sub params payload : str) :
  is_subtype_name sub = true ->
  ~ In comma params ->
  params = [] \/ (exists r, params = semicolon :: r) ->
  let d := py "data:image/" ++ sub ++ params ++ comma :: payload in
  (In sub [py "png"; py "jpeg"; py "jpg"; py "webp"] ->
   parse_data_uri d =
   Ok (Accepted (py "image/" ++ sub) (normalize_extension sub) payload)) /\
  (~ In sub [py "png"; py "jpeg"; py "jpg"; py "webp"] ->
   parse_data_uri d =
   Ok (Rejected (py "Unsupported image format: ") [AStr sub])).
Proof.
  intros Hsub Hp Hps d. subst d.
  apply is_subtype_name_inv in Hsub as (Hsc & Hc & Hsl & Hco).
  assert (parse_data_uri
            (py "data:image/" ++ sub ++ params ++ comma :: payload) =
          if str_in (normalize_extension sub) supported_formats
          then Ok (Accepted (py "image/" ++ sub) (normalize_extension sub)
                     payload)
          else Ok (Rejected (py "Unsupported image format: ")
                     [AStr (normalize_extension sub)])) as E.
  { rewrite app_assoc.
    rewrite parse_data_uri_shape;
      [ | apply startswith_prefix
        | apply not_in_literal_app; [reflexivity | assumption]
        | apply not_in_literal_app; [reflexivity | assumption]
        | assumption | assumption ].
    rewrite replace_data_prefix by assumption.
    apply check_mime_type_subtype. assumption. }
  rewrite E. split; intros Hin.
  - apply supported_subtype in Hin. rewrite Hin. reflexivity.
  - destruct (str_in (normalize_extension sub) supported_formats) eqn:Es.
    + exfalso. apply Hin. apply supported_subtype. exact Es.
    + rewrite normalize_extension_other; [reflexivity|].
      intros ->. apply Hin. right; left; reflexivity.
Qed.

(** The subtype [webp] is accepted, the same in capitals is not. *)
Lemma subtype_decides_acceptance_witness :
  is_subtype_name (py "webp") = true /\
  is_subtype_name (py "WEBP") = true /\
  ~ In comma (py ";base64") /\
  parse_data_uri (py "data:image/webp;base64,dGVzdA==") =
  Ok (Accepted (py "image/webp") (py "webp") (py "dGVzdA==")) /\
  parse_data_uri (py "data:image/WEBP;base64,dGVzdA==") =
  Ok (Rejected (py "Unsupported image format: ") [AStr (py "WEBP")]).
Proof.
  assert (~ In comma (py ";base64")) as Hp
    by (vm_compute; intuition discriminate).
  split; [reflexivity|]. split; [reflexivity|]. split; [exact Hp|].
  split.
  - apply (subtype_decides_acceptance (py "webp") (py ";base64")
             (py "dGVzdA==") eq_refl Hp
             (or_intror (ex_intro _ (py "base64") eq_refl))).
    do 3 right. left. reflexivity.
  - apply (subtype_decides_acceptance (py "WEBP") (py ";base64")
             (py "dGVzdA==") eq_refl Hp
             (or_intror (ex_intro _ (py "base64") eq_refl))).
    vm_compute. intuition discriminate.
Defined.

(** ** The byte-oriented entry point *)

(** X10.  When the MIME type is one of the four accepted ones and the
    base64 codec gives back the bytes it encoded, the byte-oriented entry
    point sends one request whose image part carries the bytes it was
    given, unchanged, under the file name and content type of that MIME
    type, followed by the four text parts. *)
Theorem bytes_are_uploaded_as_given (w : World) (image_bytes : bytes)
    (k mime_type extension : str) (model prompt : option str)
    (kb vb pb : bytes) :
  In (mime_type, extension) accepted_pairs ->
  b64decode w (b64encode_text w image_bytes) = Ok image_bytes ->
  encode_utf8 k = Ok kb ->
  encode_utf8 (or_empty model) = Ok vb ->
  encode_utf8 (or_empty prompt) = Ok pb ->
  posts (snd (run (upload_image_bytes_to_cwd w image_bytes k mime_type model
                     prompt))) =
  [upload_request (new_boundary w)
     (render (map byte_of_N (new_boundary w))
        [ FilePart (pyb "image")
            (pyb "upload." ++ map byte_of_N extension)
            (map byte_of_N mime_type) image_bytes;
          TextPart (pyb "api_key") kb;
          TextPart (pyb "ai_generated") (pyb "true");
          TextPart (pyb "model") vb;
          TextPart (pyb "prompt") pb ])].
Proof.
  intros Hin Hd Hk Hv Hq.
  set (d := py "data:" ++ mime_type ++ py ";base64,"
            ++ b64encode_text w image_bytes).
  assert (run (upload_image_bytes_to_cwd w image_bytes k mime_type model
                 prompt) =
          run (upload_base64_image_to_cwd w d k model prompt)) as ->.
  { unfold run, upload_image_bytes_to_cwd. unfold try_except at 1.
    cbv zeta. fold d.
    destruct (upload_base64_image_to_cwd_never_raises w d k model prompt [])
      as (v & t' & ->).
    reflexivity. }
  apply valid_upload_request with (pure_base64 := b64encode_text w image_bytes);
    try assumption.
  assert (exists sub, mime_type = py "image/" ++ sub /\
                      is_subtype_name sub = true /\
                      extension = normalize_extension sub)
    as (sub & -> & Hsub & ->).
  { destruct Hin as [H|[H|[H|[H|[]]]]]; inversion H; subst;
      eexists; (split; [reflexivity|]); split; reflexivity. }
  apply is_subtype_name_inv in Hsub as (Hsc & Hc & Hsl & Hco).
  change d with ((py "data:image/" ++ sub) ++ py ";base64"
                 ++ comma :: b64encode_text w image_bytes).
  rewrite parse_data_uri_shape;
    [ | apply startswith_prefix
      | apply not_in_literal_app; [reflexivity | assumption]
      | apply not_in_literal_app; [reflexivity | assumption]
      | vm_compute; intuition discriminate
      | right; eexists; reflexivity ].
  rewrite replace_data_prefix by assumption.
  rewrite check_mime_type_subtype by assumption.
  rewrite (accepted_pair_subtype _ _ Hin). reflexivity.
Qed.

(** A few bytes, sent under the default type, a JPEG. *)
Lemma bytes_are_uploaded_as_given_witness :
  let w := Reference.world (Ok Reference.success_response) in
  In (default_mime_type, py "jpg") accepted_pairs /\
  b64decode w (b64encode_text w (pyb "fake_image_data")) =
  Ok (pyb "fake_image_data") /\
  encode_utf8 (py "test_api_key_123") = Ok (pyb "test_api_key_123") /\
  encode_utf8 (or_empty None) = Ok [] /\
  posts (snd (run (upload_image_bytes_to_cwd w (pyb "fake_image_data")
                     (py "test_api_key_123") default_mime_type None None))) =
  [upload_request (new_boundary w)
     (render (map byte_of_N (new_boundary w))
        [ FilePart (pyb "image") (pyb "upload.jpg") (pyb "image/jpeg")
            (pyb "fake_image_data");
          TextPart (pyb "api_key") (pyb "test_api_key_123");
          TextPart (pyb "ai_generated") (pyb "true");
          TextPart (pyb "model") [];
          TextPart (pyb "prompt") [] ])].
Proof.
  cbv zeta.
  assert (In (default_mime_type, py "jpg") accepted_pairs) as Hin
    by (right; left; reflexivity).
  split; [exact Hin|]. repeat (split; [reflexivity|]).
  apply (bytes_are_uploaded_as_given
           (Reference.world (Ok Reference.success_response))
           (pyb "fake_image_data") (py "test_api_key_123") default_mime_type
           (py "jpg") None None (pyb "test_api_key_123") [] []
           Hin eq_refl eq_refl eq_refl eq_refl).
Defined.

(** X11.  The byte-oriented entry point checks the MIME type it is given
    only through the data URI it builds: a type that does not begin with
    ["image/"] (the empty one included) is refused by the prefix check of
    the data-URI entry point, with the record about a missing data URI
    prefix, and nothing is sent. *)
Theorem bytes_of_other_type_are_refused (w : World) (image_bytes : bytes)
    (k mime_type : str) (model prompt : option str) :
  startswith mime_type (py "image/") = false ->
  run (upload_image_bytes_to_cwd w image_bytes k mime_type model prompt) =
  (Ok PNone,
   [EvLog ERROR (py "Invalid base64 image format - missing data URI prefix")
      []]).
Proof.
  intros Hs.
  set (d := py "data:" ++ mime_type ++ py ";base64,"
            ++ b64encode_text w image_bytes).
  assert (run (upload_image_bytes_to_cwd w image_bytes k mime_type model
                 prompt) =
          run (upload_base64_image_to_cwd w d k model prompt)) as ->.
  { unfold run, upload_image_bytes_to_cwd. unfold try_except at 1.
    cbv zeta. fold d.
    destruct (upload_base64_image_to_cwd_never_raises w d k model prompt [])
      as (v & t' & ->).
    reflexivity. }
  apply run_upload_rejected. unfold parse_data_uri.
  assert (startswith d (py "data:image/") = false) as ->; [|reflexivity].
  destruct (startswith d (py "data:image/")) eqn:E; [|reflexivity].
  exfalso.
  assert (startswith (mime_type ++ semicolon :: py "base64,"
                      ++ b64encode_text w image_bytes) (py "image/") = true)
    as E'.
  { destruct (startswith_inv _ _ E) as [r Hr].
    change (py "data:image/" ++ r) with (py "data:" ++ py "image/" ++ r) in Hr.
    subst d. apply app_inv_head in Hr.
    change (py ";base64," ++ b64encode_text w image_bytes)
      with (semicolon :: py "base64," ++ b64encode_text w image_bytes) in Hr.
    rewrite Hr. apply startswith_prefix. }
  apply startswith_before in E'; [congruence|].
  vm_compute. intuition discriminate.
Qed.

(** A document instead of an image. *)
Lemma bytes_of_other_type_are_refused_witness :
  let w := Reference.world (Ok Reference.success_response) in
  startswith (py "application/pdf") (py "image/") = false /\
  run (upload_image_bytes_to_cwd w (pyb "fake_image_data")
         (py "test_api_key_123") (py "application/pdf") None None) =
  (Ok PNone,
   [EvLog ERROR (py "Invalid base64 image format - missing data URI prefix")
      []]).
Proof.
  cbv zeta. split; [reflexivity|].
  apply (bytes_of_other_type_are_refused
           (Reference.world (Ok Reference.success_response))
           (pyb "fake_image_data") (py "test_api_key_123")
           (py "application/pdf") None None eq_refl).
Defined.

(** ** The paste adapter *)

(** X12.  Every call of the paste adapter first leaves its start record
    and sends its one request; after that it leaves at most one more
    record, at level [INFO] exactly when it returns a URL.  It returns
    [None] without any further record in one case only: the request was
    answered with status 301 or 302 and the [Location] header is missing or
    empty. *)
Theorem paste_failure_without_record (w : World)
    (title content user_prompt debug_info raw_response : str) :
  let req := paste_request w title content user_prompt debug_info
               raw_response in
  let started :=
    [ EvLog INFO (py "Uploading to cwd.pw pastebin, content length: ")
        [AInt (len content)];
      EvPost req ] in
  exists v rest,
    run (CwdUploader.upload_to_cwd_pw_paste w title content user_prompt
           debug_info raw_response) = (Ok v, started ++ rest) /\
    (rest = [] \/
     exists lvl message args,
       rest = [EvLog lvl message args] /\ (lvl = INFO <-> v <> PNone)) /\
    (rest = [] <->
     exists resp,
       session_post w req = Ok resp /\
       (status resp = 301 \/ status resp = 302)%Z /\
       (headers_get resp (py "Location") = None \/
        headers_get resp (py "Location") = Some [])) /\
    (rest = [] -> v = PNone).
Proof.
  intros req started.
  rewrite run_upload_to_cwd_pw_paste. fold req. fold started.
  assert (forall lvl message args, [EvLog lvl message args] <> []) as Hne
    by (intros; discriminate).
  destruct (session_post w req) as [resp|e] eqn:Hpost.
  - destruct (existsb (Z.eqb (status resp)) [301; 302]%Z) eqn:Es.
    + apply redirect_status in Es.
      destruct (headers_get resp (py "Location")) as [[|c l]|] eqn:El.
      * exists PNone, []. rewrite app_nil_r.
        split; [reflexivity|]. split; [left; reflexivity|].
        split; [|reflexivity].
        split; [intros _; exists resp; auto | reflexivity].
      * exists (PStr (c :: l)),
          [EvLog INFO (py "cwd.pw paste created: ") [AObj (PStr (c :: l))]].
        split; [reflexivity|]. split.
        { right. do 3 eexists. split; [reflexivity|].
          split; [intros _ H; discriminate H | reflexivity]. }
        split; [|intros H; discriminate H].
        split; [intros H; discriminate H|].
        intros (r & Hr & _ & [Hl|Hl]); inversion Hr; subst r;
          rewrite El in Hl; discriminate Hl.
      * exists PNone, []. rewrite app_nil_r.
        split; [reflexivity|]. split; [left; reflexivity|].
        split; [|reflexivity].
        split; [intros _; exists resp; auto | reflexivity].
    + assert (~ (status resp = 301 \/ status resp = 302)%Z) as Hs.
      { rewrite <- redirect_status. congruence. }
      destruct (text resp) as [error_text|e].
      * exists PNone,
          [EvLog ERROR (py "Failed to create cwd.pw paste: HTTP ")
             [AInt (status resp); AStr error_text]].
        split; [reflexivity|]. split.
        { right. do 3 eexists. split; [reflexivity|].
          split; [intros H; discriminate H | intros H; contradiction]. }
        split; [|reflexivity].
        split; [intros H; discriminate H|].
        intros (r & Hr & Hst & _); inversion Hr; subst r. contradiction.
      * exists PNone,
          [EvLog ERROR (py "Error uploading to cwd.pw pastebin: ") [AExn e]].
        split; [reflexivity|]. split.
        { right. do 3 eexists. split; [reflexivity|].
          split; [intros H; discriminate H | intros H; contradiction]. }
        split; [|reflexivity].
        split; [intros H; discriminate H|].
        intros (r & Hr & Hst & _); inversion Hr; subst r. contradiction.
  - exists PNone,
      [EvLog ERROR (py "Error uploading to cwd.pw pastebin: ") [AExn e]].
    split; [reflexivity|]. split.
    { right. do 3 eexists. split; [reflexivity|].
      split; [intros H; discriminate H | intros H; contradiction]. }
    split; [|reflexivity].
    split; [intros H; discriminate H|].
    intros (r & Hr & _); discriminate Hr.
Qed.

(** ** The boundary of the form *)

(** X13.  The boundary of line 64 is the fixed text
    ["----WebKitFormBoundary"] followed by two lower-case hexadecimal
    digits for each random byte.  Whatever the random bytes are, it holds
    only hyphens, digits and ASCII letters, so no line break, quotation
    mark or space can reach the [Content-Type] header or a delimiter
    line. *)
Theorem boundary_is_alphanumeric (w : World) :
  (exists hex,
     new_boundary w = py "----WebKitFormBoundary" ++ hex /\
     length hex = (2 * length (urandom w 16))%nat /\
     forall c, In c hex -> (48 <= c <= 57 \/ 97 <= c <= 102)%N) /\
  (forall c, In c (new_boundary w) ->
     (c = 45 \/ 48 <= c <= 57 \/ 65 <= c <= 90 \/ 97 <= c <= 122)%N) /\
  length (new_boundary w) = (22 + 2 * length (urandom w 16))%nat.
Proof.
  split; [|split].
  - exists (token_hex w 16). split; [reflexivity|].
    split; [apply hexlify_length|]. intros c. apply hexlify_chars.
  - intros c Hin. unfold new_boundary in Hin.
    apply in_app_or in Hin as [Hin|Hin].
    + vm_compute in Hin.
      repeat (destruct Hin as [Hin|Hin]; [subst c; lia|]).
      destruct Hin.
    + apply hexlify_chars in Hin. lia.
  - unfold new_boundary, token_hex.
    rewrite length_app, hexlify_length. reflexivity.
Qed.

(** ** The delivery gate of the test suite *)

(** X14.  The line count the gate is given, [content.count('\n') + 1], is
    the number of pieces [content.split('\n')] has.  It is at least 1 and
    at most the number of characters plus 1, and the count of two texts
    put together is the sum of their counts less 1. *)
Theorem line_count_counts_pieces (s t : str) :
  line_count s = len (split LF s) /\
  (1 <= line_count s <= len s + 1)%Z /\
  line_count (s ++ t) = (line_count s + line_count t - 1)%Z.
Proof.
  unfold line_count. split; [|split].
  - symmetry. apply split_length.
  - pose proof (count_nonneg LF s). pose proof (count_le_len LF s). lia.
  - rewrite count_app. lia.
Qed.

(** X15.  With [str.lower] acting on ASCII text character by character,
    an ASCII service name is matched with ["cwd.pw"] exactly when it is one
    of the 32 ways of writing [cwd.pw] in capitals and small letters; the
    gate then answers ["cwd.pw"] for it if and only if a threshold is
    exceeded.  An ASCII name with anything before or after these six characters
    is not matched. *)
Theorem cwd_pw_is_matched_in_any_case (lower : str -> str) (s : str)
    (response_length lines telegram_max_length : Z) :
  (forall s, is_ascii s = true -> lower s = map ascii_lower s) ->
  is_ascii s = true ->
  let spelled :=
    exists c1 c2 c3 c5 c6,
      s = [c1; c2; c3; 46; c5; c6]%N /\
      (c1 = 99 \/ c1 = 67)%N /\ (c2 = 119 \/ c2 = 87)%N /\
      (c3 = 100 \/ c3 = 68)%N /\ (c5 = 112 \/ c5 = 80)%N /\
      (c6 = 119 \/ c6 = 87)%N in
  (is_cwd_pw lower s = true <-> spelled) /\
  (upload_service_logic lower response_length lines s telegram_max_length =
   py "cwd.pw" <->
   spelled /\ (lines > 22 \/ response_length > telegram_max_length)%Z).
Proof.
  intros Hlower Hs spelled.
  assert (is_cwd_pw lower s = true <-> spelled) as Hmatch.
  { unfold is_cwd_pw. rewrite (Hlower s Hs), str_eqb_eq. subst spelled.
    change (py "cwd.pw") with [99; 119; 100; 46; 112; 119]%N.
    split.
    - intros E.
      destruct s as [|c1 [|c2 [|c3 [|c4 [|c5 [|c6 [|c7 s]]]]]]];
        try discriminate E.
      cbn [map] in E. injection E as E1 E2 E3 E4 E5 E6.
      apply ascii_lower_letter in E1, E2, E3, E5, E6; try lia.
      apply ascii_lower_other in E4; [|lia].
      subst c4. exists c1, c2, c3, c5, c6.
      split; [reflexivity|]. lia.
    - intros (c1 & c2 & c3 & c5 & c6 & -> & H1 & H2 & H3 & H5 & H6).
      cbn [map].
      repeat f_equal;
        solve [ apply ascii_lower_letter; lia | reflexivity ]. }
  split; [exact Hmatch|].
  unfold upload_service_logic. fold (is_cwd_pw lower s).
  destruct ((22 <? lines)%Z || (telegram_max_length <? response_length)%Z)
    eqn:Eg.
  - apply gate_spec in Eg.
    destruct (is_cwd_pw lower s) eqn:Em.
    + split; [intros _; split; [apply Hmatch; reflexivity | exact Eg]
             | reflexivity].
    + split; [intros H; discriminate H|].
      intros [Hsp _]. apply Hmatch in Hsp. discriminate Hsp.
  - apply gate_false in Eg.
    split; [intros H; discriminate H | intros [_ H]; contradiction].
Qed.

(** The name in capitals, on a response of 23 lines. *)
Lemma cwd_pw_is_matched_in_any_case_witness :
  (forall s, is_ascii s = true -> Reference.lower s = map ascii_lower s) /\
  is_ascii (py "CWD.PW") = true /\
  is_cwd_pw Reference.lower (py "CWD.PW") = true /\
  upload_service_logic Reference.lower 100 23 (py "CWD.PW") 4000 = py "cwd.pw".
Proof.
  assert (forall s, is_ascii s = true -> Reference.lower s = map ascii_lower s)
    as Hlower by (intros; reflexivity).
  split; [exact Hlower|]. split; [reflexivity|].
  destruct (cwd_pw_is_matched_in_any_case Reference.lower (py "CWD.PW")
              100 23 4000 Hlower eq_refl) as [H1 H2].
  assert (exists c1 c2 c3 c5 c6,
            py "CWD.PW" = [c1; c2; c3; 46; c5; c6]%N /\
            (c1 = 99 \/ c1 = 67)%N /\ (c2 = 119 \/ c2 = 87)%N /\
            (c3 = 100 \/ c3 = 68)%N /\ (c5 = 112 \/ c5 = 80)%N /\
            (c6 = 119 \/ c6 = 87)%N) as Hsp.
  { exists 67%N, 87%N, 68%N, 80%N, 87%N.
    repeat split; try reflexivity; right; reflexivity. }
  split; [apply H1; exact Hsp|].
  apply H2. split; [exact Hsp|]. left. reflexivity.
Defined.

(** X16.  The gate is monotone: once a response is uploaded, a response
    with at least as many characters and lines is uploaded to the same
    service, also under a smaller character limit. *)
Theorem upload_decision_is_monotone (lower : str -> str)
    (response_length lines response_length' lines' : Z) (upload_service : str)
    (telegram_max_length telegram_max_length' : Z) :
  upload_service_logic lower response_length lines upload_service
    telegram_max_length <> py "direct" ->
  (response_length <= response_length')%Z ->
  (lines <= lines')%Z ->
  (telegram_max_length' <= telegram_max_length)%Z ->
  upload_service_logic lower response_length' lines' upload_service
    telegram_max_length' =
  upload_service_logic lower response_length lines upload_service
    telegram_max_length.
Proof.
  intros Hup Hr Hl Hm. unfold upload_service_logic in *.
  destruct ((22 <? lines)%Z || (telegram_max_length <? response_length)%Z)
    eqn:Eg; [|exfalso; apply Hup; reflexivity].
  apply gate_spec in Eg.
  assert ((22 <? lines')%Z || (telegram_max_length' <? response_length')%Z
          = true) as ->; [|reflexivity].
  apply gate_spec. lia.
Qed.

(** From 4001 characters on 10 lines to 5000 characters on 30. *)
Lemma upload_decision_is_monotone_witness :
  upload_service_logic Reference.lower 4001 10 (py "cwd.pw") 4000
  <> py "direct" /\
  upload_service_logic Reference.lower 5000 30 (py "cwd.pw") 100 =
  upload_service_logic Reference.lower 4001 10 (py "cwd.pw") 4000.
Proof.
  assert (upload_service_logic Reference.lower 4001 10 (py "cwd.pw") 4000
          <> py "direct") as Hup
    by (vm_compute; intros H; discriminate H).
  split; [exact Hup|].
  apply (upload_decision_is_monotone Reference.lower 4001 10 5000 30
           (py "cwd.pw") 4000 100 Hup); lia.
Defined.

(** ** The configured key *)

(** X17.  The two image entry points never read the key of the
    configuration: the key they send is the one their caller passes.  Two
    worlds that differ in [CWD_PW_API_KEY] alone give the same run of
    either entry point. *)
Theorem image_upload_ignores_configured_key (w w' : World)
    (d k mime_type : str) (image_bytes : bytes) (model prompt : option str)
    (t : trace) :
  b64decode w' = b64decode w ->
  b64encode_text w' = b64encode_text w ->
  urandom w' = urandom w ->
  session_post w' = session_post w ->
  upload_base64_image_to_cwd w' d k model prompt t =
  upload_base64_image_to_cwd w d k model prompt t /\
  upload_image_bytes_to_cwd w' image_bytes k mime_type model prompt t =
  upload_image_bytes_to_cwd w image_bytes k mime_type model prompt t.
Proof.
  intros Hd He Hu Hs.
  assert (forall d', upload_base64_image_to_cwd w' d' k model prompt t =
                     upload_base64_image_to_cwd w d' k model prompt t) as E.
  { intros d'.
    unfold upload_base64_image_to_cwd, post, new_boundary, token_hex.
    rewrite Hd, Hu, Hs. reflexivity. }
  split; [apply E|].
  unfold upload_image_bytes_to_cwd. rewrite He.
  unfold try_except at 1 2. rewrite E. reflexivity.
Qed.

(** The reference world under another configured key. *)
Lemma image_upload_ignores_configured_key_witness :
  let w := Reference.world (Ok Reference.success_response) in
  let w' :=
    {| b64decode := b64decode w;
       b64encode_text := b64encode_text w;
       urandom := urandom w;
       session_post := session_post w;
       CWD_PW_API_KEY := py "another_key" |} in
  CWD_PW_API_KEY w' <> CWD_PW_API_KEY w /\
  run (upload_base64_image_to_cwd w' (py "data:image/png;base64,dGVzdA==")
         (py "test_api_key_123") None None) =
  run (upload_base64_image_to_cwd w (py "data:image/png;base64,dGVzdA==")
         (py "test_api_key_123") None None).
Proof.
  cbv zeta. split; [vm_compute; intros H; discriminate H|].
  apply (image_upload_ignores_configured_key
           (Reference.world (Ok Reference.success_response))
           {| b64decode :=
                b64decode (Reference.world (Ok Reference.success_response));
              b64encode_text :=
                b64encode_text
                  (Reference.world (Ok Reference.success_response));
              urandom :=
                urandom (Reference.world (Ok Reference.success_response));
              session_post :=
                session_post
                  (Reference.world (Ok Reference.success_response));
              CWD_PW_API_KEY := py "another_key" |}
           (py "data:image/png;base64,dGVzdA==") (py "test_api_key_123")
           (py "image/png") (pyb "test") None None []
           eq_refl eq_refl eq_refl eq_refl).
Defined.
